(** * The Wedof client: rate-limited fetcher and pagination aggregator

    A shallow embedding of [wedof_client.py] (class [WedofClient]) and the
    properties of its paginated drain and of its eleven-endpoint aggregate.

    Python values are an inductive type, exceptions are values of [exn],
    the mutable query-parameter dictionaries live in a store addressed by
    references, and the HTTP session, the clock and [time.sleep] are the
    operations of a [Transport].  The [while True] loop of
    [get_paginated_data] is run with fuel. *)

From Stdlib Require Import ZArith String Ascii List Bool Lia.
From stdpp Require Import gmap strings list fin_maps pretty.
Import ListNotations.

Set Warnings "-register-all,-clear-no-such-hyp".

Local Open Scope string_scope.
Local Open Scope Z_scope.
Local Open Scope list_scope.

(** ** Python values *)

(** A Python [float]: a double is [m * 2^e], an infinity or a NaN.  Only its
    truth value is ever inspected by the client. *)
Inductive pyfloat :=
| FFinite (m e : Z)
| FInf (negative : bool)
| FNaN.

(** The values [response.json()] can return, which are also the values a
    query-parameter dictionary holds.  [VDict kvs] is the dictionary built by
    inserting the pairs [kvs] from left to right: a later pair with the same
    key replaces an earlier one. *)
Inductive pyval :=
| VNone
| VBool (b : bool)
| VInt (n : Z)
| VFloat (f : pyfloat)
| VStr (s : string)
| VList (l : list pyval)
| VDict (kvs : list (string * pyval)).

(** [d[k]] and [k in d] for [d = VDict kvs]: the last binding of [k]. *)
Fixpoint dict_get (k : string) (kvs : list (string * pyval)) : option pyval :=
  match kvs with
  | [] => None
  | (k', v) :: rest =>
      match dict_get k rest with
      | Some v' => Some v'
      | None => if String.eqb k k' then Some v else None
      end
  end.

(** The keys of [VDict kvs], each once. *)
Definition dict_keys (kvs : list (string * pyval)) : list string :=
  remove_dups (map fst kvs).

(** [needle in s] for two [str]. *)
Fixpoint str_contains (needle s : string) : bool :=
  if String.prefix needle s then true
  else match s with
       | EmptyString => false
       | String _ s' => str_contains needle s'
       end.

(** [bool(v)]: what [if not data] tests. *)
Definition py_truthy (v : pyval) : bool :=
  match v with
  | VNone => false
  | VBool b => b
  | VInt n => negb (n =? 0)
  | VFloat (FFinite m _) => negb (m =? 0)
  | VFloat _ => true
  | VStr s => negb (String.eqb s "")
  | VList l => match l with [] => false | _ => true end
  | VDict kvs => match kvs with [] => false | _ => true end
  end.

(** [isinstance(v, list)]. *)
Definition is_list (v : pyval) : bool :=
  match v with VList _ => true | _ => false end.

(** [None], a [bool] or a number: the values without [in] and [len]. *)
Definition is_scalar (v : pyval) : bool :=
  match v with
  | VNone | VBool _ | VInt _ | VFloat _ => true
  | _ => false
  end.

(** ** Exceptions and results *)

(** The exception classes the client can meet.  [HTTPError] is the subclass
    of [RequestException] that [raise_for_status] raises;
    [RequestException kind _] stands for every other class of
    [requests.exceptions] ([ConnectionError], [Timeout], the library's
    [JSONDecodeError], ...). *)
Inductive exn :=
| HTTPError (status : Z) (text : string)
| RequestException (kind msg : string)
| TypeError (msg : string)
| ValueError (msg : string)
| KeyError (key : string)
| UnboundLocalError (name : string)
| OtherException (cls msg : string).

(** A call that returns or raises. *)
Inductive res (A : Type) :=
| Ok (a : A)
| Err (e : exn).
Arguments Ok {A} a.
Arguments Err {A} e.

(** A call that returns, raises, or is still looping when the fuel is spent. *)
Inductive outcome (A : Type) :=
| Ret (a : A)
| Raise (e : exn)
| OutOfFuel.
Arguments Ret {A} a.
Arguments Raise {A} e.
Arguments OutOfFuel {A}.

(** [len(v)]. A [str] is its sequence of characters. *)
Definition py_len (v : pyval) : res Z :=
  match v with
  | VList l => Ok (Z.of_nat (length l))
  | VDict kvs => Ok (Z.of_nat (length (dict_keys kvs)))
  | VStr s => Ok (Z.of_nat (String.length s))
  | VNone => Err (TypeError "object of type 'NoneType' has no len()")
  | VBool _ => Err (TypeError "object of type 'bool' has no len()")
  | VInt _ => Err (TypeError "object of type 'int' has no len()")
  | VFloat _ => Err (TypeError "object of type 'float' has no len()")
  end.

(** ** [int(s)] on a header value *)

(** The characters [int] strips from both ends of its argument: the ASCII
    blanks (tab to carriage return, and the space) and, of the characters
    above 127 that a header value can hold, the two that are white space
    (NEL and the no-break space).  The separators 28 to 31 are not
    stripped. *)
Definition is_space (c : ascii) : bool :=
  let n := nat_of_ascii c in
  ((9 <=? n) && (n <=? 13) || (n =? 32) || (n =? 133) || (n =? 160))%nat.

Definition is_digit (c : ascii) : bool :=
  let n := nat_of_ascii c in ((48 <=? n) && (n <=? 57))%nat.

Definition digit_value (c : ascii) : Z := Z.of_nat (nat_of_ascii c - 48).

Fixpoint lstrip (cs : list ascii) : list ascii :=
  match cs with
  | c :: cs' => if is_space c then lstrip cs' else cs
  | [] => []
  end.

Definition strip (cs : list ascii) : list ascii :=
  rev (lstrip (rev (lstrip cs))).

(** The two [ValueError] of [int]. *)
Definition invalid_literal : exn := ValueError "invalid literal for int()".
Definition exceeds_limit : exn :=
  ValueError "Exceeds the limit for integer string conversion".

(** A literal of [count] digits is refused when the interpreter has a limit
    ([sys.get_int_max_str_digits()], 4300 unless configured; 0 is no limit)
    and [count] is above it.  Up to 640 digits are never refused. *)
Definition over_limit (max_str_digits count : Z) : bool :=
  (640 <? count) && (0 <? max_str_digits) && (max_str_digits <? count).

(** Decimal digits, single underscores allowed between two digits.  [count]
    is the number of digits read; the limit is tested where the run of
    digits ends, before what follows it is looked at. *)
Fixpoint digits (max_str_digits acc count : Z) (after_digit : bool) (cs : list ascii)
  : res Z :=
  match cs with
  | [] =>
      if after_digit
      then if over_limit max_str_digits count then Err exceeds_limit else Ok acc
      else Err invalid_literal
  | c :: cs' =>
      if is_digit c
      then digits max_str_digits (10 * acc + digit_value c) (count + 1) true cs'
      else if Ascii.eqb c "_"%char then
             if after_digit then digits max_str_digits acc count false cs'
             else Err invalid_literal
           else if after_digit && over_limit max_str_digits count
                then Err exceeds_limit else Err invalid_literal
  end.

Definition res_map {A B} (f : A -> B) (r : res A) : res B :=
  match r with
  | Ok a => Ok (f a)
  | Err e => Err e
  end.

(** [int(s)] for a [str] whose characters are below 256, as those of a
    header value are. *)
Definition py_int (max_str_digits : Z) (s : string) : res Z :=
  match strip (list_ascii_of_string s) with
  | c :: cs =>
      if Ascii.eqb c "-"%char then res_map Z.opp (digits max_str_digits 0 0 false cs)
      else if Ascii.eqb c "+"%char then digits max_str_digits 0 0 false cs
      else digits max_str_digits 0 0 false (c :: cs)
  | [] => Err invalid_literal
  end.

(** ** The HTTP response and the outside world *)

(** What the client reads of a [requests.Response]: [json] is what
    [response.json()] returns or raises. *)
Record response := mkResponse {
  status_code : Z;
  headers : list (string * string);
  text : string;
  json : res pyval
}.

Definition lower (c : ascii) : ascii :=
  let n := nat_of_ascii c in
  if ((65 <=? n) && (n <=? 90))%nat then ascii_of_nat (n + 32) else c.

Fixpoint lower_str (s : string) : string :=
  match s with
  | EmptyString => EmptyString
  | String c s' => String (lower c) (lower_str s')
  end.

(** [response.headers] compares header names without regard to case. *)
Definition header_get (name : string) (hs : list (string * string)) : option string :=
  snd <$> find (fun kv => String.eqb (lower_str (fst kv)) (lower_str name)) hs.

(** [response.raise_for_status()]: the statuses 400 to 599 raise. *)
Definition raise_for_status (r : response) : res unit :=
  if (400 <=? status_code r) && (status_code r <? 600)
  then Err (HTTPError (status_code r) (text r))
  else Ok tt.

(** A query-parameter dictionary, and a reference to one. *)
Abbreviation dict := (gmap string pyval).
Abbreviation loc := positive.

(** The collaborators of the client: the clock, [time.sleep], [urljoin] and
    the authenticated [requests.Session], and the interpreter's limit on the
    digits [int] accepts.  [Instant] is the type of clock readings with the
    two literals and the two operations the client applies to them. *)
Class Transport := {
  int_max_str_digits : Z;
  World : Type;
  Instant : Type;
  time_0 : Instant;
  time_0_6 : Instant;
  time_sub : Instant -> Instant -> Instant;
  time_ltb : Instant -> Instant -> bool;
  time_time : World -> Instant * World;
  time_sleep : Instant -> World -> World;
  urljoin : string -> string -> string;
  session_request : string -> string -> dict -> World -> (exn + response) * World
}.

(** ** Log records *)

Inductive level := INFO | WARNING | ERROR.

(** One constructor per [logger] call of the module, with the values its
    message is formatted from. *)
Inductive message :=
| MsgRateLimitClose (remaining : Z)
| MsgHttpError (status : Z) (body : string)
| MsgRequestError (e : exn)
| MsgPage (page : Z) (endpoint : string)
| MsgTotal (n : nat) (endpoint : string)
| MsgStart
| MsgFetching (name : string)
| MsgFetched (name : string) (n : nat)
| MsgFailed (name : string) (e : exn)
| MsgDone.

Definition level_of (m : message) : level :=
  match m with
  | MsgRateLimitClose _ => WARNING
  | MsgHttpError _ _ | MsgRequestError _ | MsgFailed _ _ => ERROR
  | _ => INFO
  end.

(** ** The client object and the program state *)

Section Client.
Context `{T : Transport}.

Record WedofClient := mkClient {
  api_key : string;
  base_url : string;
  last_request_time : Instant;
  min_request_interval : Instant
}.

(** [WedofClient.__init__]. *)
Definition init (key url : string) : WedofClient :=
  {| api_key := key; base_url := url;
     last_request_time := time_0; min_request_interval := time_0_6 |}.

(** A request handed to [session.request]: method, URL and the contents of
    the [params] dictionary at the call. *)
Definition request : Type := string * string * dict.

(** [sent] is the history of the calls made to [session.request], oldest
    first; [log] is what the module's [logger] has received. *)
Record state := mkState {
  world : World;
  self : WedofClient;
  heap : gmap loc dict;
  log : list message;
  sent : list request
}.

Definition set_world (w : World) (st : state) : state :=
  {| world := w; self := self st; heap := heap st; log := log st; sent := sent st |}.

Definition set_last_request_time (t : Instant) (st : state) : state :=
  {| world := world st;
     self := {| api_key := api_key (self st); base_url := base_url (self st);
                last_request_time := t;
                min_request_interval := min_request_interval (self st) |};
     heap := heap st; log := log st; sent := sent st |}.

Definition set_heap (h : gmap loc dict) (st : state) : state :=
  {| world := world st; self := self st; heap := h; log := log st; sent := sent st |}.

Definition logger (m : message) (st : state) : state :=
  {| world := world st; self := self st; heap := heap st; log := log st ++ [m];
     sent := sent st |}.

Definition record_request (r : request) (st : state) : state :=
  {| world := world st; self := self st; heap := heap st; log := log st;
     sent := sent st ++ [r] |}.

(** ** The rate-limited fetcher *)

Definition _wait_for_rate_limit (st : state) : state :=
  let '(current_time, w1) := time_time (world st) in
  let time_since_last := time_sub current_time (last_request_time (self st)) in
  let w2 :=
    if time_ltb time_since_last (min_request_interval (self st))
    then time_sleep (time_sub (min_request_interval (self st)) time_since_last) w1
    else w1 in
  let '(now, w3) := time_time w2 in
  set_last_request_time now (set_world w3 st).

(** The two [except] clauses of [_make_request], for an exception [e] raised
    in its [try] block; [bound] is the value of the local [response], if the
    assignment was reached. *)
Definition except_clauses (bound : option response) (e : exn) (st : state)
  : res pyval * state :=
  match e with
  | HTTPError _ _ =>
      match bound with
      | Some r => (Err e, logger (MsgHttpError (status_code r) (text r)) st)
      | None => (Err (UnboundLocalError "response"), st)
      end
  | RequestException _ _ => (Err e, logger (MsgRequestError e) st)
  | _ => (Err e, st)
  end.

(** The [try] block after [session.request] has returned [r]. *)
Definition try_block (r : response) (st : state) : res pyval * state :=
  match raise_for_status r with
  | Err e => except_clauses (Some r) e st
  | Ok _ =>
      match header_get "X-RateLimit-Remaining" (headers r) with
      | Some v =>
          match py_int int_max_str_digits v with
          | Err e => except_clauses (Some r) e st
          | Ok remaining =>
              let st1 := if remaining <? 5
                         then logger (MsgRateLimitClose remaining) st else st in
              match json r with
              | Ok v => (Ok v, st1)
              | Err e => except_clauses (Some r) e st1
              end
          end
      | None =>
          match json r with
          | Ok v => (Ok v, st)
          | Err e => except_clauses (Some r) e st
          end
      end
  end.

Definition _make_request (method endpoint : string) (params : dict) (st : state)
  : res pyval * state :=
  let st1 := _wait_for_rate_limit st in
  let url := urljoin (base_url (self st1)) endpoint in
  let '(r, w) := session_request method url params (world st1) in
  let st2 := set_world w (record_request (method, url, params) st1) in
  match r with
  | inl e => except_clauses None e st2
  | inr r => try_block r st2
  end.

(** ** The store of query-parameter dictionaries *)

Definition deref (l : loc) (st : state) : dict := default ∅ (heap st !! l).

(** [params[k] = v] *)
Definition setitem (l : loc) (k : string) (v : pyval) (st : state) : state :=
  set_heap (<[l := <[k := v]> (deref l st)]> (heap st)) st.

(** [params[k]] *)
Definition getitem (l : loc) (k : string) (st : state) : res pyval :=
  match deref l st !! k with
  | Some v => Ok v
  | None => Err (KeyError k)
  end.

(** [{}]: a new, empty dictionary. *)
Definition new_dict (st : state) : loc * state :=
  let l := fresh (dom (heap st)) in (l, set_heap (<[l := ∅]> (heap st)) st).

(** [params or {}]: [None] and an empty dictionary are false. *)
Definition params_or_new (params : option loc) (st : state) : loc * state :=
  match params with
  | Some l => if Nat.eqb (size (deref l st)) 0 then new_dict st else (l, st)
  | None => new_dict st
  end.

(** ** The pagination aggregator: one endpoint *)

(** Lines 105 to 110: the [isinstance] / ['data' in response] cascade.
    On a [str], [in] is the substring test and [response['data']] raises; on
    [None] and the numbers, [in] itself raises. *)
Definition select_data (response : pyval) : res pyval :=
  match response with
  | VList _ => Ok response
  | VDict kvs =>
      match dict_get "data" kvs with
      | Some v => Ok v
      | None => Ok response
      end
  | VStr s =>
      if str_contains "data" s
      then Err (TypeError "string indices must be integers")
      else Ok response
  | VNone | VBool _ | VInt _ | VFloat _ =>
      Err (TypeError "argument is not iterable")
  end.

(** Line 115: [data if isinstance(data, list) else [data]]. *)
Definition as_items (data : pyval) : list pyval :=
  match data with
  | VList l => l
  | _ => [data]
  end.

(** [n < v] for an [int] n. *)
Definition py_int_lt (n : Z) (v : pyval) : res bool :=
  match v with
  | VInt m => Ok (n <? m)
  | VBool b => Ok (n <? Z.b2z b)
  | VFloat (FFinite m e) =>
      Ok (if 0 <=? e then n <? m * 2 ^ e else n * 2 ^ (- e) <? m)
  | VFloat (FInf negative) => Ok (negb negative)
  | VFloat FNaN => Ok false
  | _ => Err (TypeError "'<' not supported")
  end.

(** How one pass through the loop body ends. *)
Inductive step :=
| Continue (all_data : list pyval)
| Break (all_data : list pyval)
| Fail (e : exn).

(** Lines 105 to 121, for the decoded [response]; [limit] is the value of
    [params['limit']]. *)
Definition page_step (response : pyval) (limit : res pyval) (all_data : list pyval)
  : step :=
  match select_data response with
  | Err e => Fail e
  | Ok data =>
      if negb (py_truthy data) then Break all_data
      else
        let all_data' := all_data ++ as_items data in
        match py_len data with
        | Err e => Fail e
        | Ok n =>
            match limit with
            | Err e => Fail e
            | Ok lim =>
                match py_int_lt n lim with
                | Err e => Fail e
                | Ok true => Break all_data'
                | Ok false => Continue all_data'
                end
            end
        end
  end.

(** Lines 98 to 102: set the pagination keys, log, call the fetcher. *)
Definition request_page (endpoint : string) (params : loc) (page : Z) (st : state)
  : res pyval * state :=
  let st1 := setitem params "limit" (VInt 100)
               (setitem params "page" (VInt page) st) in
  let st2 := logger (MsgPage page endpoint) st1 in
  _make_request "GET" endpoint (deref params st2) st2.

(** One pass through the body of the [while True] loop. *)
Definition loop_body (endpoint : string) (params : loc) (page : Z)
    (all_data : list pyval) (st : state) : step * state :=
  match request_page endpoint params page st with
  | (Err e, st1) => (Fail e, st1)
  | (Ok response, st1) =>
      (page_step response (getitem params "limit" st1) all_data, st1)
  end.

(** The [while True] loop of [get_paginated_data]. *)
Fixpoint drain_loop (fuel : nat) (endpoint : string) (params : loc) (page : Z)
    (all_data : list pyval) (st : state) : outcome (list pyval) * state :=
  match fuel with
  | O => (OutOfFuel, st)
  | S fuel' =>
      match loop_body endpoint params page all_data st with
      | (Continue all_data', st1) =>
          drain_loop fuel' endpoint params (page + 1) all_data' st1
      | (Break all_data', st1) => (Ret all_data', st1)
      | (Fail e, st1) => (Raise e, st1)
      end
  end.

Definition get_paginated_data (fuel : nat) (endpoint : string) (params : option loc)
    (st : state) : outcome (list pyval) * state :=
  let '(l, st0) := params_or_new params st in
  match drain_loop fuel endpoint l 1 [] st0 with
  | (Ret all_data, st1) =>
      (Ret all_data, logger (MsgTotal (length all_data) endpoint) st1)
  | other => other
  end.

(** ** The per-endpoint accessors *)

Definition get_users fuel := get_paginated_data fuel "/api/users" None.
Definition get_trainings fuel := get_paginated_data fuel "/api/trainings" None.
Definition get_sessions fuel := get_paginated_data fuel "/api/sessions" None.
Definition get_attendees fuel := get_paginated_data fuel "/api/attendees" None.
Definition get_registration_folders fuel :=
  get_paginated_data fuel "/api/registrationFolders" None.
Definition get_certification_folders fuel :=
  get_paginated_data fuel "/api/certificationFolders" None.
Definition get_organisms fuel := get_paginated_data fuel "/api/organisms" None.
Definition get_activities fuel := get_paginated_data fuel "/api/activities" None.
Definition get_evaluations fuel := get_paginated_data fuel "/api/evaluations" None.
Definition get_invoices fuel := get_paginated_data fuel "/api/invoices" None.
Definition get_payments fuel := get_paginated_data fuel "/api/payments" None.

(** ** The aggregate *)

Definition method := state -> outcome (list pyval) * state.

(** The list [endpoints] of [get_all_data]. *)
Definition endpoints (fuel : nat) : list (string * method) :=
  [ ("users", get_users fuel);
    ("trainings", get_trainings fuel);
    ("sessions", get_sessions fuel);
    ("attendees", get_attendees fuel);
    ("registration_folders", get_registration_folders fuel);
    ("certification_folders", get_certification_folders fuel);
    ("organisms", get_organisms fuel);
    ("activities", get_activities fuel);
    ("evaluations", get_evaluations fuel);
    ("invoices", get_invoices fuel);
    ("payments", get_payments fuel) ].

(** The [for name, method in endpoints] loop with its [try] / [except]. *)
Fixpoint for_endpoints (eps : list (string * method))
    (all_data : gmap string (list pyval)) (st : state)
  : outcome (gmap string (list pyval)) * state :=
  match eps with
  | [] => (Ret all_data, st)
  | (name, m) :: rest =>
      match m (logger (MsgFetching name) st) with
      | (Ret items, st1) =>
          for_endpoints rest (<[name := items]> all_data)
            (logger (MsgFetched name (length items)) st1)
      | (Raise e, st1) =>
          for_endpoints rest (<[name := []]> all_data)
            (logger (MsgFailed name e) st1)
      | (OutOfFuel, st1) => (OutOfFuel, st1)
      end
  end.

Definition get_all_data (fuel : nat) (st : state)
  : outcome (gmap string (list pyval)) * state :=
  match for_endpoints (endpoints fuel) ∅ (logger MsgStart st) with
  | (Ret all_data, st1) => (Ret all_data, logger MsgDone st1)
  | other => other
  end.

End Client.

(** ** A scripted transport

    A test double for the session: the clock counts milliseconds and only
    moves when the client sleeps, and [server] answers each request from its
    URL and query parameters. *)

Definition mock (server : string -> dict -> exn + response) : Transport := {|
  int_max_str_digits := 4300;
  World := Z;
  Instant := Z;
  time_0 := 0;
  time_0_6 := 600;
  time_sub := Z.sub;
  time_ltb := Z.ltb;
  time_time := fun w => (w, w);
  time_sleep := fun d w => w + d;
  urljoin := String.append;
  session_request := fun _ url params w => (server url params, w)
|}.

(** A 200 response whose body decodes to [v]. *)
Definition ok_json (hs : list (string * string)) (v : pyval) : response :=
  {| status_code := 200; headers := hs; text := ""; json := Ok v |}.

(** An endpoint that answers the request for page [p] with [src p]. *)
Definition page_source (src : Z -> pyval) : string -> dict -> exn + response :=
  fun _ params =>
    match params !! "page" with
    | Some (VInt p) => inr (ok_json [] (src p))
    | _ => inl (RequestException "ConnectionError" "no page")
    end.

(** The transport of an endpoint that serves the page [src p] when asked
    for page [p]. *)
Definition scripted (src : Z -> pyval) : Transport := mock (page_source src).

(** The pages of a list in turn, empty pages after the last. *)
Definition successive (pages : list pyval) : Z -> pyval :=
  fun p => nth (Z.to_nat (p - 1)) pages (VList []).

(** A client just constructed, at clock reading [w]. *)
Definition fresh_state `{T : Transport} (w : World) : state :=
  {| world := w; self := init "key" "https://www.wedof.fr";
     heap := ∅; log := []; sent := [] |}.

(** [n] records, numbered from [first]. *)
Definition records (first : Z) (n : nat) : list pyval :=
  map (fun i => VDict [("id", VInt i)]) (seqZ first (Z.of_nat n)).

(** ** Reading the log and the request history *)

(** The records written by [_make_request] itself. *)
Definition fetcher_message (m : message) : bool :=
  match m with
  | MsgRateLimitClose _ | MsgHttpError _ _ | MsgRequestError _ => true
  | _ => false
  end.

(** The names announced by [get_all_data], in the order logged. *)
Fixpoint names_fetched (l : list message) : list string :=
  match l with
  | [] => []
  | MsgFetching name :: l' => name :: names_fetched l'
  | _ :: l' => names_fetched l'
  end.

(** The endpoints whose first page was asked for, in the order logged. *)
Fixpoint drains_started (l : list message) : list string :=
  match l with
  | [] => []
  | MsgPage page endpoint :: l' =>
      if page =? 1 then endpoint :: drains_started l' else drains_started l'
  | _ :: l' => drains_started l'
  end.

(** The query parameters with the pagination keys of page [p]. *)
Definition paged (d : dict) (p : Z) : dict :=
  <["limit" := VInt 100]> (<["page" := VInt p]> d).

(** The requests of the pages [p], [p+1], ..., [p+k-1]. *)
Definition page_requests (url : string) (d : dict) (p : Z) (k : nat)
  : list (string * string * dict) :=
  map (fun i => ("GET", url, paged d i)) (seqZ p (Z.of_nat k)).

(** The names and paths of the eleven endpoints, as [get_all_data] lists
    them and the accessors spell them. *)
Definition endpoint_table : list (string * string) :=
  [ ("users", "/api/users");
    ("trainings", "/api/trainings");
    ("sessions", "/api/sessions");
    ("attendees", "/api/attendees");
    ("registration_folders", "/api/registrationFolders");
    ("certification_folders", "/api/certificationFolders");
    ("organisms", "/api/organisms");
    ("activities", "/api/activities");
    ("evaluations", "/api/evaluations");
    ("invoices", "/api/invoices");
    ("payments", "/api/payments") ].

(** The bound methods of a table of names and paths, each with [fuel] for
    its loop. *)
Definition table_methods `{T : Transport} (fuel : nat) (table : list (string * string))
  : list (string * method) :=
  map (fun np => (np.1, get_paginated_data fuel np.2 None)) table.

(** In a run whose log grew from [l0] to [l1], the drain of [path] was run
    from a state [st1] of that run, right after [name] was announced, and
    [stored] is what it returned, or the empty list if it raised. *)
Definition drained_in_run `{T : Transport} (fuel : nat) (l0 l1 : list message)
    (name path : string) (stored : option (list pyval)) : Prop :=
  exists (st1 : state) pre post,
    log st1 = l0 ++ pre ++ [MsgFetching name]
    /\ l1 = log (get_paginated_data fuel path None st1).2 ++ post
    /\ match (get_paginated_data fuel path None st1).1 with
       | Ret items => stored = Some items
       | Raise _ => stored = Some []
       | OutOfFuel => False
       end.

(** What a pass through the loop body leaves in [all_data], if it did not
    raise. *)
Definition step_data (s : step) : option (list pyval) :=
  match s with
  | Continue a | Break a => Some a
  | Fail _ => None
  end.

(** The rate header is absent or holds an integer. *)
Definition rate_header_readable `{T : Transport} (r : response) : Prop :=
  match header_get "X-RateLimit-Remaining" (headers r) with
  | Some v => exists n, py_int int_max_str_digits v = Ok n
  | None => True
  end.

(** A caller's query parameters: a filter, and a page number of its own. *)
Definition caller_params : dict :=
  <["status" := VStr "active"]> (<["page" := VInt 7]> ∅).

(** The answer of a server that is down. *)
Definition unavailable : response :=
  {| status_code := 503; headers := []; text := "Service Unavailable";
     json := Err (RequestException "JSONDecodeError" "Expecting value") |}.

(** A server whose first page is full and whose later pages are down. *)
Definition second_page_fails : string -> dict -> exn + response :=
  fun _ params =>
    match params !! "page" with
    | Some (VInt 1) => inr (ok_json [] (VList (records 1 100)))
    | _ => inr unavailable
    end.


(** A server on which the endpoint of the attendees is down and every other
    endpoint has two records. *)
Definition attendees_down : string -> dict -> exn + response :=
  fun url _ =>
    if String.eqb url "https://www.wedof.fr/api/attendees"
    then inr unavailable
    else inr (ok_json [] (VDict [("data", VList (records 1 2))])).

(** A JSON object with a hundred fields, none of them named [data]. *)
Definition wide_fields : list (string * pyval) :=
  map (fun i => ("field_" +:+ pretty i, VInt i)) (seqZ 0 100).

Definition wide_object : pyval := VDict wide_fields.

(** What the session answers to the call [_make_request] makes from [st]:
    the request goes out after the wait, to the joined URL. *)
Definition session_answer `{T : Transport} (method endpoint : string) (params : dict)
    (st : state) : exn + response :=
  (session_request method (urljoin (base_url (self st)) endpoint) params
     (world (_wait_for_rate_limit st))).1.



(** ** An exact clock

    What the client's arithmetic needs of the clock to keep its interval:
    instants are whole numbers of milliseconds, subtraction and comparison
    are exact, a reading lies between the moment it is asked for and the
    moment it is returned, a sleep lasts at least as long as asked, and a
    request does not turn the clock back.  [now] is the time of a world. *)
Record exact_clock `{T : Transport} (now : World -> Z) (ms : Instant -> Z) : Prop := {
  sub_exact : forall a b, ms (time_sub a b) = ms a - ms b;
  ltb_exact : forall a b, time_ltb a b = (ms a <? ms b);
  reading : forall w, now w <= ms (time_time w).1 <= now (time_time w).2;
  sleeping : forall d w, now w + ms d <= now (time_sleep d w);
  requesting : forall m u p w, now w <= now (session_request m u p w).2
}.

(** ** The Google Sheets client ([google_sheets_client.py]) *)

(** [v[k]] for a string [k]. *)
Definition py_getitem (v : pyval) (k : string) : res pyval :=
  match v with
  | VDict kvs =>
      match dict_get k kvs with
      | Some x => Ok x
      | None => Err (KeyError k)
      end
  | VList _ => Err (TypeError "list indices must be integers or slices, not str")
  | VStr _ => Err (TypeError "string indices must be integers")
  | VNone | VBool _ | VInt _ | VFloat _ =>
      Err (TypeError "object is not subscriptable")
  end.

(** The keys of [VDict kvs] in the order a loop visits them: the order of
    their first insertion. *)
Definition dict_iter_keys (kvs : list (string * pyval)) : list string :=
  rev (remove_dups (rev (map fst kvs))).

(** What [for x in v] visits. *)
Definition py_iter (v : pyval) : res (list pyval) :=
  match v with
  | VList l => Ok l
  | VDict kvs => Ok (VStr <$> dict_iter_keys kvs)
  | VStr s => Ok ((fun c => VStr (String c EmptyString)) <$> list_ascii_of_string s)
  | VNone | VBool _ | VInt _ | VFloat _ => Err (TypeError "object is not iterable")
  end.

(** [t == name] for a [str] name. *)
Definition title_is (name : string) (t : pyval) : bool :=
  match t with
  | VStr s => String.eqb s name
  | _ => false
  end.

Definition is_lower (c : ascii) : bool :=
  let n := nat_of_ascii c in ((97 <=? n) && (n <=? 122))%nat.

Definition is_upper (c : ascii) : bool :=
  let n := nat_of_ascii c in ((65 <=? n) && (n <=? 90))%nat.

Definition upper (c : ascii) : ascii :=
  if is_lower c then ascii_of_nat (nat_of_ascii c - 32) else c.

(** A [str] of ASCII characters, on which the two functions below are
    [str.replace] and [str.title]. *)
Definition is_ascii (s : string) : bool :=
  forallb (fun c => (nat_of_ascii c <? 128)%nat) (list_ascii_of_string s).

(** [s.replace(a, b)] for two one-character strings. *)
Fixpoint replace_char (a b : ascii) (s : string) : string :=
  match s with
  | EmptyString => EmptyString
  | String c s' => String (if Ascii.eqb c a then b else c) (replace_char a b s')
  end.

(** [s.title()]: a letter that follows a letter is put in lower case, any
    other letter in upper case. *)
Fixpoint title_from (previous_is_cased : bool) (s : string) : string :=
  match s with
  | EmptyString => EmptyString
  | String c s' =>
      String (if previous_is_cased then lower c else upper c)
        (title_from (is_lower c || is_upper c) s')
  end.

Definition py_title (s : string) : string := title_from false s.

(** Line 276: [data_type.replace('_', ' ').title()]. *)
Definition sheet_name_of (data_type : string) : string :=
  py_title (replace_char "_" " " data_type).

(** The two request bodies the client sends to [batchUpdate]: lines 103 to
    109, and lines 232 to 253 (the first row in bold on a grey ground). *)
Inductive batch_request :=
| AddSheet (title : string)
| RepeatCellHeaders (sheet_id : pyval).

(** The calls made on [self.service], each ended by [.execute()]. *)
Inductive sheets_call :=
| SpreadsheetsGet (spreadsheet_id : string)
| SpreadsheetsBatchUpdate (spreadsheet_id : string) (requests : list batch_request)
| ValuesClear (spreadsheet_id range : string)
| ValuesUpdate (spreadsheet_id range value_input_option : string)
    (values : list (list pyval)).

(** The collaborators of the Sheets client: the authenticated service, and
    pandas, whose work in lines 166 to 186 (the data frame of the records,
    its column labels, its cells as strings) is [frame_values]. *)
Class Sheets := {
  SheetsWorld : Type;
  execute : sheets_call -> SheetsWorld -> res pyval * SheetsWorld;
  frame_values : list pyval -> res (list (list pyval))
}.

(** One constructor per [logger] call of the module. *)
Inductive sheets_message :=
| SheetExists (name : string)
| SheetCreated (name : string)
| SheetCreateError (name : string) (e : exn)
| SheetCleared (name : string)
| SheetClearError (name : string) (e : exn)
| NothingToWrite (name : string)
| RowsWritten (rows : pyval) (name : string)
| WriteError (name : string) (e : exn)
| SheetNotFound (name : string)
| HeadersFormatted (name : string)
| FormatError (name : string) (e : exn)
| SyncStart
| Syncing (n : nat) (name : string)
| NoDataFor (name : string)
| SyncError (data_type : string) (e : exn)
| SyncDone.

Section SheetsClient.
Context `{S : Sheets}.

(** [calls] is the history of the calls executed on the service. *)
Record sheets_state := mkSheets {
  sheets_world : SheetsWorld;
  spreadsheet_id : string;
  calls : list sheets_call;
  sheets_log : list sheets_message
}.

Definition sheets_logger (m : sheets_message) (st : sheets_state) : sheets_state :=
  {| sheets_world := sheets_world st; spreadsheet_id := spreadsheet_id st;
     calls := calls st; sheets_log := sheets_log st ++ [m] |}.

(** [....execute()] *)
Definition run_call (c : sheets_call) (st : sheets_state) : res pyval * sheets_state :=
  let '(r, w) := execute c (sheets_world st) in
  (r, {| sheets_world := w; spreadsheet_id := spreadsheet_id st;
         calls := calls st ++ [c]; sheets_log := sheets_log st |}).

(** Lines 95 and 96: the titles of all the sheets. *)
Fixpoint sheet_titles (sheets : list pyval) : res (list pyval) :=
  match sheets with
  | [] => Ok []
  | sheet :: rest =>
      match py_getitem sheet "properties" with
      | Err e => Err e
      | Ok properties =>
          match py_getitem properties "title" with
          | Err e => Err e
          | Ok t =>
              match sheet_titles rest with
              | Err e => Err e
              | Ok ts => Ok (t :: ts)
              end
          end
      end
  end.

(** The [try] block of [create_sheet_if_not_exists]. *)
Definition create_sheet_try (sheet_name : string) (st : sheets_state)
  : res bool * sheets_state :=
  match run_call (SpreadsheetsGet (spreadsheet_id st)) st with
  | (Err e, st1) => (Err e, st1)
  | (Ok spreadsheet, st1) =>
      match py_getitem spreadsheet "sheets" with
      | Err e => (Err e, st1)
      | Ok sheets =>
          match py_iter sheets with
          | Err e => (Err e, st1)
          | Ok l =>
              match sheet_titles l with
              | Err e => (Err e, st1)
              | Ok existing_sheets =>
                  if existsb (title_is sheet_name) existing_sheets
                  then (Ok false, sheets_logger (SheetExists sheet_name) st1)
                  else
                    match run_call (SpreadsheetsBatchUpdate (spreadsheet_id st1)
                                      [AddSheet sheet_name]) st1 with
                    | (Err e, st2) => (Err e, st2)
                    | (Ok _, st2) =>
                        (Ok true, sheets_logger (SheetCreated sheet_name) st2)
                    end
              end
          end
      end
  end.

Definition create_sheet_if_not_exists (sheet_name : string) (st : sheets_state)
  : res bool * sheets_state :=
  match create_sheet_try sheet_name st with
  | (Err e, st1) => (Err e, sheets_logger (SheetCreateError sheet_name e) st1)
  | ok => ok
  end.

Definition clear_sheet (sheet_name : string) (st : sheets_state)
  : res unit * sheets_state :=
  match run_call (ValuesClear (spreadsheet_id st) (sheet_name +:+ "!A:ZZ")) st with
  | (Err e, st1) => (Err e, sheets_logger (SheetClearError sheet_name e) st1)
  | (Ok _, st1) => (Ok tt, sheets_logger (SheetCleared sheet_name) st1)
  end.

(** [result.get('updatedRows', 0)] *)
Definition updated_rows (result : pyval) : res pyval :=
  match result with
  | VDict kvs => Ok (default (VInt 0) (dict_get "updatedRows" kvs))
  | _ => Err (OtherException "AttributeError" "object has no attribute 'get'")
  end.

(** The [try] block of [write_data_to_sheet]. *)
Definition write_data_try (sheet_name : string) (data : list pyval)
    (clear_first : bool) (st : sheets_state) : res unit * sheets_state :=
  match create_sheet_if_not_exists sheet_name st with
  | (Err e, st1) => (Err e, st1)
  | (Ok _, st1) =>
      match (if clear_first then clear_sheet sheet_name st1 else (Ok tt, st1)) with
      | (Err e, st2) => (Err e, st2)
      | (Ok _, st2) =>
          match frame_values data with
          | Err e => (Err e, st2)
          | Ok all_values =>
              match run_call (ValuesUpdate (spreadsheet_id st2)
                                (sheet_name +:+ "!A1") "RAW" all_values) st2 with
              | (Err e, st3) => (Err e, st3)
              | (Ok result, st3) =>
                  match updated_rows result with
                  | Err e => (Err e, st3)
                  | Ok rows_updated =>
                      (Ok tt, sheets_logger (RowsWritten rows_updated sheet_name) st3)
                  end
              end
          end
      end
  end.

Definition write_data_to_sheet (sheet_name : string) (data : list pyval)
    (clear_first : bool) (st : sheets_state) : res unit * sheets_state :=
  match data with
  | [] => (Ok tt, sheets_logger (NothingToWrite sheet_name) st)
  | _ =>
      match write_data_try sheet_name data clear_first st with
      | (Err e, st1) => (Err e, sheets_logger (WriteError sheet_name e) st1)
      | ok => ok
      end
  end.

(** Lines 221 to 225: the [sheetId] of the first sheet with the title, or
    [None]; the loop stops there. *)
Fixpoint find_sheet_id (sheet_name : string) (sheets : list pyval) : res pyval :=
  match sheets with
  | [] => Ok VNone
  | sheet :: rest =>
      match py_getitem sheet "properties" with
      | Err e => Err e
      | Ok properties =>
          match py_getitem properties "title" with
          | Err e => Err e
          | Ok t =>
              if title_is sheet_name t
              then py_getitem properties "sheetId"
              else find_sheet_id sheet_name rest
          end
      end
  end.

(** The [try] block of [format_sheet_headers]. *)
Definition format_headers_try (sheet_name : string) (st : sheets_state)
  : res unit * sheets_state :=
  match run_call (SpreadsheetsGet (spreadsheet_id st)) st with
  | (Err e, st1) => (Err e, st1)
  | (Ok spreadsheet, st1) =>
      match py_getitem spreadsheet "sheets" with
      | Err e => (Err e, st1)
      | Ok sheets =>
          match py_iter sheets with
          | Err e => (Err e, st1)
          | Ok l =>
              match find_sheet_id sheet_name l with
              | Err e => (Err e, st1)
              | Ok VNone => (Ok tt, sheets_logger (SheetNotFound sheet_name) st1)
              | Ok sheet_id =>
                  match run_call (SpreadsheetsBatchUpdate (spreadsheet_id st1)
                                    [RepeatCellHeaders sheet_id]) st1 with
                  | (Err e, st2) => (Err e, st2)
                  | (Ok _, st2) =>
                      (Ok tt, sheets_logger (HeadersFormatted sheet_name) st2)
                  end
              end
          end
      end
  end.

(** The [except] clause of [format_sheet_headers] logs and does not raise. *)
Definition format_sheet_headers (sheet_name : string) (st : sheets_state)
  : res unit * sheets_state :=
  match format_headers_try sheet_name st with
  | (Err e, st1) => (Ok tt, sheets_logger (FormatError sheet_name e) st1)
  | ok => ok
  end.

(** One pass through the loop of [sync_wedof_data]. *)
Definition sync_one (item : string * list pyval) (st : sheets_state) : sheets_state :=
  let '(data_type, data_list) := item in
  let sheet_name := sheet_name_of data_type in
  let st1 := sheets_logger (Syncing (length data_list) sheet_name) st in
  match data_list with
  | [] => sheets_logger (NoDataFor sheet_name) st1
  | _ =>
      match write_data_to_sheet sheet_name data_list true st1 with
      | (Err e, st2) => sheets_logger (SyncError data_type e) st2
      | (Ok _, st2) =>
          match format_sheet_headers sheet_name st2 with
          | (Err e, st3) => sheets_logger (SyncError data_type e) st3
          | (Ok _, st3) => st3
          end
      end
  end.

(** [sync_wedof_data]; [items] is [wedof_data.items()]. *)
Definition sync_wedof_data (items : list (string * list pyval)) (st : sheets_state)
  : res unit * sheets_state :=
  (Ok tt,
   sheets_logger SyncDone
     (fold_left (fun st item => sync_one item st) items (sheets_logger SyncStart st))).

Definition get_spreadsheet_url (st : sheets_state) : string :=
  "https://docs.google.com/spreadsheets/d/" +:+ spreadsheet_id st +:+ "/edit".

End SheetsClient.

(** ** The synchronisation service ([main.py]) *)

(** The environment is a map from variable names to values; [os.getenv] is
    its lookup. *)
Definition required_vars : list string :=
  ["WEDOF_API_KEY"; "GOOGLE_CREDENTIALS_PATH"; "GOOGLE_SPREADSHEET_ID"].

(** [not os.getenv(var)]: unset, or set to the empty string. *)
Definition unset_or_empty (env : gmap string string) (var : string) : bool :=
  match env !! var with
  | None => true
  | Some v => String.eqb v ""
  end.

Definition missing_vars (env : gmap string string) : list string :=
  List.filter (unset_or_empty env) required_vars.

(** [sep.join(l)] *)
Fixpoint join (sep : string) (l : list string) : string :=
  match l with
  | [] => ""
  | [x] => x
  | x :: rest => x +:+ sep +:+ join sep rest
  end.

(** What [WedofSyncService.__init__] hands to the two constructors. *)
Record service_config := mkConfig {
  cfg_api_key : string;
  cfg_base_url : string;
  cfg_credentials_path : string;
  cfg_spreadsheet_id : string
}.

(** [WedofSyncService.__init__] up to the construction of the two clients:
    the check of the required variables and the arguments of the
    constructors. *)
Definition service_config_of_env (env : gmap string string) : res service_config :=
  match missing_vars env with
  | [] =>
      Ok {| cfg_api_key := default "" (env !! "WEDOF_API_KEY");
            cfg_base_url := default "https://www.wedof.fr" (env !! "WEDOF_BASE_URL");
            cfg_credentials_path := default "" (env !! "GOOGLE_CREDENTIALS_PATH");
            cfg_spreadsheet_id := default "" (env !! "GOOGLE_SPREADSHEET_ID") |}
  | missing =>
      Err (ValueError ("Variables d'environnement manquantes: " +:+ join ", " missing))
  end.

(** The records [sync_data] and [run_once] write to the log of [main]. *)
Inductive main_message :=
| MainRule
| MainStarting
| MainTimestamp
| MainFetching
| MainTotal (total_items : nat)
| MainSyncing
| MainSheetAt (url : string)
| MainSucceeded
| MainError (e : exn)
| MainFailed
| MainRunOnce.

(** [wedof_data.items()] for the dictionary [get_all_data] returns: its keys
    were inserted in the order of the endpoint table. *)
Definition aggregate_items (all_data : gmap string (list pyval))
  : list (string * list pyval) :=
  omap (fun name => (fun items => (name, items)) <$> all_data !! name)
    endpoint_table.*1.

(** [sum(len(data_list) for data_list in wedof_data.values())] *)
Definition total_items (items : list (string * list pyval)) : nat :=
  foldr (fun item n => (length item.2 + n)%nat) 0%nat items.

Section Service.
Context `{T : Transport} `{S : Sheets}.

(** The state of a run: the Wedof client's, the Sheets client's, and the
    log of [main]. *)
Definition service_state : Type := state * sheets_state * list main_message.

Definition main_logs (ms : list main_message) (st : service_state) : service_state :=
  (st.1.1, st.1.2, st.2 ++ ms).

(** The [except] clause of [sync_data]. *)
Definition sync_failed (e : exn) (st : service_state) : outcome unit * service_state :=
  (Raise e, main_logs [MainError e; MainRule; MainFailed; MainRule] st).

Definition sync_data (fuel : nat) (st : service_state) : outcome unit * service_state :=
  let st1 := main_logs [MainRule; MainStarting; MainTimestamp; MainRule;
                        MainFetching] st in
  match get_all_data fuel st1.1.1 with
  | (OutOfFuel, w) => (OutOfFuel, (w, st1.1.2, st1.2))
  | (Raise e, w) => sync_failed e (w, st1.1.2, st1.2)
  | (Ret wedof_data, w) =>
      let items := aggregate_items wedof_data in
      let st2 := main_logs [MainTotal (total_items items); MainSyncing]
                   (w, st1.1.2, st1.2) in
      match sync_wedof_data items st2.1.2 with
      | (Err e, g) => sync_failed e (st2.1.1, g, st2.2)
      | (Ok _, g) =>
          (Ret tt,
           main_logs [MainSheetAt (get_spreadsheet_url g); MainRule;
                      MainSucceeded; MainRule] (st2.1.1, g, st2.2))
      end
  end.

Definition run_once (fuel : nat) (st : service_state) : outcome unit * service_state :=
  sync_data fuel (main_logs [MainRunOnce] st).

End Service.

(** ** A scripted Sheets service

    A test double: the service answers every call from the call alone, and
    [frame] stands in for pandas. *)
Definition mock_sheets (answer : sheets_call -> res pyval)
    (frame : list pyval -> res (list (list pyval))) : Sheets := {|
  SheetsWorld := unit;
  execute := fun c w => (answer c, w);
  frame_values := frame
|}.

(** A spreadsheet with the one sheet [Users], and a service that accepts
    every call. *)
Definition users_spreadsheet : pyval :=
  VDict [("sheets",
          VList [VDict [("properties",
                         VDict [("sheetId", VInt 0); ("title", VStr "Users")])]])].

Definition accepting : sheets_call -> res pyval :=
  fun c =>
    match c with
    | SpreadsheetsGet _ => Ok users_spreadsheet
    | _ => Ok (VDict [])
    end.

(** pandas failing on the records. *)
Definition frame_fails : list pyval -> res (list (list pyval)) :=
  fun _ => Err (ValueError "The truth value of an array is ambiguous").

(** A frame of one column. *)
Definition frame_ids : list pyval -> res (list (list pyval)) :=
  fun data => Ok ([VStr "id"] :: map (fun v => [v]) data).

Definition sheets_start `{S : Sheets} (w : SheetsWorld) : sheets_state :=
  {| sheets_world := w; spreadsheet_id := "sheet-1"; calls := [];
     sheets_log := [] |}.

(** ** Frame properties of the fetcher *)

Section Fetcher.
Context `{T : Transport}.

Lemma wait_frame st :
  heap (_wait_for_rate_limit st) = heap st
  /\ log (_wait_for_rate_limit st) = log st
  /\ sent (_wait_for_rate_limit st) = sent st
  /\ base_url (self (_wait_for_rate_limit st)) = base_url (self st).
Proof.
  unfold _wait_for_rate_limit.
  destruct (time_time (world st)) as [now w1].
  destruct (time_time _) as [now' w3]. done.
Qed.

Lemma except_clauses_frame bound e st r st' :
  except_clauses bound e st = (r, st') ->
  heap st' = heap st /\ sent st' = sent st /\ world st' = world st
  /\ self st' = self st
  /\ exists new, log st' = log st ++ new /\ forallb fetcher_message new = true.
Proof.
  unfold except_clauses. intros H.
  destruct e; try destruct bound; simplify_eq; simpl;
    repeat split; try done;
    first [ by exists []; rewrite app_nil_r | by eexists [_] ].
Qed.

Lemma try_block_frame r0 st r st' :
  try_block r0 st = (r, st') ->
  heap st' = heap st /\ sent st' = sent st /\ world st' = world st
  /\ self st' = self st
  /\ exists new, log st' = log st ++ new /\ forallb fetcher_message new = true.
Proof.
  unfold try_block. intros H.
  destruct (raise_for_status r0); [| by eapply except_clauses_frame].
  destruct (header_get _ _) as [v|].
  - destruct (py_int _ v) as [remaining|e0]; [| by eapply except_clauses_frame].
    destruct (remaining <? 5).
    + destruct (json r0).
      * simplify_eq; simpl. repeat split; try done. by eexists [_].
      * apply except_clauses_frame in H as (-> & -> & -> & -> & new & -> & Hn).
        simpl. repeat split; try done.
        exists (MsgRateLimitClose remaining :: new).
        by rewrite <- app_assoc.
    + destruct (json r0); [| by eapply except_clauses_frame].
      simplify_eq. repeat split; try done. exists []. by rewrite app_nil_r.
  - destruct (json r0); [| by eapply except_clauses_frame].
    simplify_eq. repeat split; try done. exists []. by rewrite app_nil_r.
Qed.

Lemma make_request_frame method endpoint params st r st' :
  _make_request method endpoint params st = (r, st') ->
  heap st' = heap st
  /\ sent st' = sent st ++ [(method, urljoin (base_url (self st)) endpoint, params)]
  /\ base_url (self st') = base_url (self st)
  /\ exists new, log st' = log st ++ new /\ forallb fetcher_message new = true.
Proof.
  unfold _make_request. intros H.
  destruct (wait_frame st) as (Hh & Hl & Hs & Hb).
  destruct (session_request _ _ _ _) as [[e|r0] w].
  - apply except_clauses_frame in H as (-> & -> & _ & -> & new & -> & Hn).
    simpl. rewrite Hh, Hl, Hs, Hb. eauto 6.
  - apply try_block_frame in H as (-> & -> & _ & -> & new & -> & Hn).
    simpl. rewrite Hh, Hl, Hs, Hb. eauto 6.
Qed.

End Fetcher.

(** ** The loop of the drain *)

Section Drain.
Context `{T : Transport}.

Lemma deref_set_heap l D st :
  deref l (set_heap (<[l := D]> (heap st)) st) = D.
Proof. unfold deref. simpl. by rewrite lookup_insert_eq. Qed.

Lemma deref_heap l D h st : heap st = <[l := D]> h -> deref l st = D.
Proof. unfold deref. intros ->. by rewrite lookup_insert_eq. Qed.

Lemma paged_paged d p q : paged (paged d p) q = paged d q.
Proof.
  apply map_eq. intros k. unfold paged.
  destruct (decide (k = "limit")) as [->|]; [by rewrite !lookup_insert_eq|].
  destruct (decide (k = "page")) as [->|].
  - rewrite !(lookup_insert_ne _ "limit" "page") by done.
    by rewrite !lookup_insert_eq.
  - by rewrite !lookup_insert_ne.
Qed.

Lemma paged_limit d p : paged d p !! "limit" = Some (VInt 100).
Proof. unfold paged. by rewrite lookup_insert_eq. Qed.

Lemma paged_page d p : paged d p !! "page" = Some (VInt p).
Proof. unfold paged. rewrite lookup_insert_ne by done. by rewrite lookup_insert_eq. Qed.

Lemma paged_other d p k : k <> "limit" -> k <> "page" -> paged d p !! k = d !! k.
Proof. intros. unfold paged. by rewrite !lookup_insert_ne. Qed.

Lemma request_page_frame endpoint l page st r st' :
  request_page endpoint l page st = (r, st') ->
  heap st' = <[l := paged (deref l st) page]> (heap st)
  /\ sent st' = sent st ++ [("GET", urljoin (base_url (self st)) endpoint,
                             paged (deref l st) page)]
  /\ base_url (self st') = base_url (self st)
  /\ exists new, log st' = log st ++ MsgPage page endpoint :: new
                 /\ forallb fetcher_message new = true.
Proof.
  unfold request_page. intros H.
  apply make_request_frame in H as (Hh & Hs & Hb & new & Hl & Hn).
  assert (Hd : deref l (logger (MsgPage page endpoint)
                          (setitem l "limit" (VInt 100)
                             (setitem l "page" (VInt page) st)))
               = paged (deref l st) page).
  { unfold deref at 1. simpl. rewrite lookup_insert_eq. simpl.
    unfold setitem at 1. by rewrite deref_set_heap. }
  rewrite Hd in Hs. rewrite Hh, Hs, Hb, Hl. simpl.
  rewrite insert_insert_eq.
  repeat split; try done.
  - f_equal. unfold setitem at 1. by rewrite deref_set_heap.
  - exists new. by rewrite <- app_assoc.
Qed.

Lemma loop_body_unfold endpoint l page all_data st :
  loop_body endpoint l page all_data st =
  match request_page endpoint l page st with
  | (Err e, st1) => (Fail e, st1)
  | (Ok response, st1) => (page_step response (Ok (VInt 100)) all_data, st1)
  end.
Proof.
  unfold loop_body.
  destruct (request_page endpoint l page st) as [[response|e] st1] eqn:E; [|done].
  apply request_page_frame in E as (Hh & _).
  unfold getitem. rewrite (deref_heap _ _ _ _ Hh), paged_limit. done.
Qed.

Lemma loop_body_frame endpoint l page all_data st s st' :
  loop_body endpoint l page all_data st = (s, st') ->
  heap st' = <[l := paged (deref l st) page]> (heap st)
  /\ sent st' = sent st ++ [("GET", urljoin (base_url (self st)) endpoint,
                             paged (deref l st) page)]
  /\ base_url (self st') = base_url (self st)
  /\ exists new, log st' = log st ++ MsgPage page endpoint :: new
                 /\ forallb fetcher_message new = true.
Proof.
  unfold loop_body. intros H.
  destruct (request_page endpoint l page st) as [[response|e] st1] eqn:E;
    simplify_eq; by eapply request_page_frame.
Qed.

Lemma page_requests_paged url d p q k :
  page_requests url (paged d p) q k = page_requests url d q k.
Proof.
  unfold page_requests. apply map_ext. intros i. by rewrite paged_paged.
Qed.

(** Whatever ends the loop, it has asked for the pages [page], [page+1], ...
    in turn, each with the caller's parameters and the two pagination keys,
    and has left the keys of the last page in the dictionary. *)
Lemma drain_loop_frame fuel : forall endpoint l page all_data st o st',
  drain_loop fuel endpoint l page all_data st = (o, st') ->
  o <> OutOfFuel ->
  exists k : nat,
    (0 < k <= fuel)%nat
    /\ heap st' = <[l := paged (deref l st) (page + Z.of_nat k - 1)]> (heap st)
    /\ sent st' = sent st ++ page_requests (urljoin (base_url (self st)) endpoint)
                               (deref l st) page k
    /\ base_url (self st') = base_url (self st).
Proof.
  induction fuel as [|fuel IH]; intros endpoint l page all_data st o st' H Ho.
  { simpl in H. by simplify_eq. }
  simpl in H.
  destruct (loop_body endpoint l page all_data st) as [s st1] eqn:E.
  apply loop_body_frame in E as (Hh & Hs & Hb & _).
  assert (Hone : page_requests (urljoin (base_url (self st)) endpoint)
                   (deref l st) page 1
                 = [("GET", urljoin (base_url (self st)) endpoint,
                     paged (deref l st) page)]) by done.
  destruct s as [all_data'|all_data'|e].
  - apply IH in H as (k & Hk & Hh' & Hs' & Hb'); [|done].
    exists (S k). split; [lia|].
    rewrite (deref_heap _ _ _ _ Hh) in Hh', Hs'.
    rewrite paged_paged in Hh'. rewrite page_requests_paged in Hs'.
    rewrite Hh', Hs', Hb', Hh, Hs, Hb, insert_insert_eq.
    repeat split; try done.
    + do 2 f_equal. lia.
    + rewrite <- app_assoc. f_equal. unfold page_requests.
      rewrite (seqZ_cons page) by lia. simpl. do 3 f_equal; lia.
  - simplify_eq. exists 1%nat. split; [lia|].
    rewrite Hh, Hs, Hb, Hone. repeat split; try done. do 2 f_equal. lia.
  - simplify_eq. exists 1%nat. split; [lia|].
    rewrite Hh, Hs, Hb, Hone. repeat split; try done. do 2 f_equal. lia.
Qed.

End Drain.

(** ** The drain and the caller's query parameters *)

Section Params.
Context `{T : Transport}.

Lemma new_dict_spec st :
  heap st !! (new_dict st).1 = None
  /\ heap (new_dict st).2 = <[(new_dict st).1 := ∅]> (heap st)
  /\ sent (new_dict st).2 = sent st
  /\ log (new_dict st).2 = log st
  /\ self (new_dict st).2 = self st.
Proof.
  unfold new_dict. simpl. repeat split; try done.
  apply not_elem_of_dom, is_fresh.
Qed.

(** The drain, whatever ends it, in terms of the dictionary it works on. *)
Lemma get_paginated_data_frame fuel endpoint params st :
  let r := get_paginated_data fuel endpoint params st in
  let l := (params_or_new params st).1 in
  let st0 := (params_or_new params st).2 in
  r.1 <> OutOfFuel ->
  exists n : nat,
    (0 < n <= fuel)%nat
    /\ heap r.2 = <[l := paged (deref l st0) (Z.of_nat n)]> (heap st0)
    /\ sent r.2 = sent st0 ++ page_requests (urljoin (base_url (self st0)) endpoint)
                               (deref l st0) 1 n.
Proof.
  unfold get_paginated_data.
  destruct (params_or_new params st) as [l st0]. simpl.
  destruct (drain_loop fuel endpoint l 1 [] st0) as [o st1] eqn:E.
  intros Ho.
  assert (Ho' : o <> OutOfFuel) by (by destruct o).
  apply drain_loop_frame in E as (k & Hk & Hh & Hs & _); [|done].
  exists k. split; [done|].
  replace (1 + Z.of_nat k - 1) with (Z.of_nat k) in Hh by lia.
  by destruct o.
Qed.

End Params.

(** C10. A non-empty dictionary passed as [params] is the one the drain
    works on: when the call is over (returned or raised), that dictionary
    holds [limit = 100] and [page = n], n being the number of the last page
    requested, in place of any entries it had under these keys, its other
    entries and every other dictionary are as before, and the requests
    carried the caller's entries.  With [None] or an empty dictionary the
    drain works on a new one and leaves every existing dictionary as it
    was. *)
Theorem drain_mutates_caller_params `{T : Transport} fuel endpoint params st :
  let r := get_paginated_data fuel endpoint params st in
  let url := urljoin (base_url (self st)) endpoint in
  r.1 <> OutOfFuel ->
  exists n : nat,
    (0 < n)%nat
    /\ (forall l d, params = Some l -> heap st !! l = Some d -> d <> ∅ ->
          heap r.2 !! l = Some (<["limit" := VInt 100]>
                                  (<["page" := VInt (Z.of_nat n)]> d))
          /\ (forall l', l' <> l -> heap r.2 !! l' = heap st !! l')
          /\ sent r.2 = sent st ++ page_requests url d 1 n
          /\ last (sent r.2) = Some ("GET", url, paged d (Z.of_nat n)))
    /\ (params = None \/ (exists l, params = Some l /\ heap st !! l = Some ∅) ->
          (forall l', is_Some (heap st !! l') -> heap r.2 !! l' = heap st !! l')
          /\ sent r.2 = sent st ++ page_requests url ∅ 1 n).
Proof.
  intros r url Hr.
  destruct (get_paginated_data_frame fuel endpoint params st Hr)
    as (n & Hn & Hh & Hs).
  fold r in Hh, Hs. exists n. split; [lia|]. split.
  - intros l d -> Hl Hd.
    assert (Hsize : Nat.eqb (size (deref l st)) 0 = false).
    { unfold deref. rewrite Hl. simpl. apply Nat.eqb_neq.
      by intros ?%map_size_empty_iff. }
    unfold params_or_new in Hh, Hs. rewrite Hsize in Hh, Hs. simpl in Hh, Hs.
    assert (Hd' : deref l st = d) by (unfold deref; by rewrite Hl).
    rewrite Hd' in Hh, Hs. rewrite Hh, Hs. fold url.
    repeat split.
    + by rewrite lookup_insert_eq.
    + intros l' Hne. by rewrite lookup_insert_ne.
    + destruct n as [|n]; [lia|]. unfold page_requests.
      rewrite seqZ_S, map_app, app_assoc. simpl.
      rewrite last_snoc. do 3 f_equal. lia.
  - intros Hp.
    assert (Hnew : params_or_new params st = new_dict st).
    { destruct Hp as [->|(l & -> & Hl)]; [done|].
      unfold params_or_new, deref. by rewrite Hl. }
    rewrite Hnew in Hh, Hs.
    destruct (new_dict_spec st) as (Hfresh & Hh0 & Hs0 & _ & Hself).
    rewrite Hh0 in Hh. rewrite Hs0, Hself in Hs. fold url in Hs.
    rewrite (deref_heap _ _ _ _ Hh0) in Hh, Hs.
    split; [|done].
    intros l' [d' Hl']. rewrite Hh.
    rewrite !lookup_insert_ne; [done| |]; intros <-; congruence.
Qed.

(** ** The log of a drain *)

Section Log.
Context `{T : Transport}.

Lemma names_fetched_app a b :
  names_fetched (a ++ b) = names_fetched a ++ names_fetched b.
Proof.
  induction a as [|m a IH]; [done|]. simpl.
  destruct m; simpl; by rewrite ?IH.
Qed.

Lemma drains_started_app a b :
  drains_started (a ++ b) = drains_started a ++ drains_started b.
Proof.
  induction a as [|m a IH]; [done|]. simpl.
  destruct m; simpl; rewrite ?IH; try done. by destruct (page =? 1).
Qed.

Lemma fetcher_messages_silent new :
  forallb fetcher_message new = true ->
  names_fetched new = [] /\ drains_started new = [].
Proof.
  induction new as [|m new IH]; [done|]. simpl.
  intros [Hm Hn]%andb_prop. destruct (IH Hn). by destruct m.
Qed.

Lemma drain_loop_log fuel : forall endpoint l page all_data st o st',
  drain_loop fuel endpoint l page all_data st = (o, st') ->
  o <> OutOfFuel ->
  1 <= page ->
  exists new, log st' = log st ++ new
              /\ names_fetched new = []
              /\ drains_started new = if page =? 1 then [endpoint] else [].
Proof.
  induction fuel as [|fuel IH]; intros endpoint l page all_data st o st' H Ho Hp.
  { simpl in H. by simplify_eq. }
  simpl in H.
  destruct (loop_body endpoint l page all_data st) as [s st1] eqn:E.
  apply loop_body_frame in E as (_ & _ & _ & new0 & Hl & Hn).
  destruct (fetcher_messages_silent _ Hn) as [Hn1 Hn2].
  assert (Hhere : names_fetched (MsgPage page endpoint :: new0) = []
                  /\ drains_started (MsgPage page endpoint :: new0)
                     = if page =? 1 then [endpoint] else []).
  { simpl. rewrite Hn1, Hn2. by destruct (page =? 1). }
  destruct Hhere as [Hh1 Hh2].
  destruct s as [all_data'|all_data'|e].
  - apply IH in H as (new & Hl' & Hf & Hd); [|done|lia].
    exists ((MsgPage page endpoint :: new0) ++ new).
    rewrite Hl', Hl, names_fetched_app, drains_started_app, Hh1, Hh2, Hf, Hd.
    rewrite <- app_assoc. repeat split; try done.
    replace (page + 1 =? 1) with false by lia. by rewrite app_nil_r.
  - simplify_eq. eauto.
  - simplify_eq. eauto.
Qed.

Lemma get_paginated_data_log fuel endpoint params st :
  let r := get_paginated_data fuel endpoint params st in
  r.1 <> OutOfFuel ->
  exists new, log r.2 = log st ++ new
              /\ names_fetched new = []
              /\ drains_started new = [endpoint].
Proof.
  unfold get_paginated_data.
  assert (Hl0 : log (params_or_new params st).2 = log st).
  { unfold params_or_new. destruct params as [l|]; [|done].
    by destruct (Nat.eqb _ _). }
  destruct (params_or_new params st) as [l st0]. simpl in Hl0.
  destruct (drain_loop fuel endpoint l 1 [] st0) as [o st1] eqn:E.
  intros Ho.
  assert (Ho' : o <> OutOfFuel) by (by destruct o).
  apply drain_loop_log in E as (new & Hl & Hf & Hd); [|done|lia].
  simpl in Hd. rewrite Hl0 in Hl.
  destruct o; simpl; [|by eauto|done].
  exists (new ++ [MsgTotal (length a) endpoint]).
  rewrite Hl, names_fetched_app, drains_started_app, Hf, Hd, app_assoc. done.
Qed.

End Log.

(** ** The aggregate *)

Section Aggregate.
Context `{T : Transport}.

Lemma endpoints_table fuel : endpoints fuel = table_methods fuel endpoint_table.
Proof. reflexivity. Qed.

Lemma for_endpoints_spec fuel (table : list (string * string)) :
  forall all_data st,
  NoDup table.*1 ->
  let r := for_endpoints (table_methods fuel table) all_data st in
  match r.1 with
  | Raise _ => False
  | OutOfFuel =>
      exists name path st1,
        (name, path) ∈ table
        /\ (get_paginated_data fuel path None st1).1 = OutOfFuel
  | Ret m =>
      dom m = list_to_set table.*1 ∪ dom all_data
      /\ (exists new, log r.2 = log st ++ new
                      /\ names_fetched new = table.*1
                      /\ drains_started new = table.*2)
      /\ (forall name, name ∉ table.*1 -> m !! name = all_data !! name)
      /\ (forall name path, (name, path) ∈ table ->
            drained_in_run fuel (log st) (log r.2) name path (m !! name))
  end.
Proof.
  induction table as [|[name path] rest IH]; intros all_data st Hnd.
  { simpl. repeat split.
    - by rewrite (left_id_L ∅ (∪)).
    - exists []. by rewrite app_nil_r.
    - by intros name path ?%elem_of_nil. }
  apply NoDup_cons in Hnd as [Hname Hrest]. simpl.
  pose proof (get_paginated_data_log fuel path None (logger (MsgFetching name) st))
    as Hlog. simpl in Hlog.
  destruct (get_paginated_data fuel path None (logger (MsgFetching name) st))
    as [o st1] eqn:E.
  assert (Hhead : forall (items : list pyval) (m' : gmap string (list pyval))
                         (stm st2 : state) msg new',
            (o = Ret items \/ (exists e, o = Raise e) /\ items = []) ->
            log stm = log st1 ++ [msg] ->
            dom m' = list_to_set rest.*1 ∪ dom (<[name := items]> all_data) ->
            log st2 = log stm ++ new' ->
            names_fetched [msg] = [] -> drains_started [msg] = [] ->
            names_fetched new' = rest.*1 -> drains_started new' = rest.*2 ->
            (forall n, n ∉ rest.*1 -> m' !! n = <[name := items]> all_data !! n) ->
            (forall n p, (n, p) ∈ rest ->
               drained_in_run fuel (log stm) (log st2) n p (m' !! n)) ->
            dom m' = list_to_set (name :: rest.*1) ∪ dom all_data
            /\ (exists new, log st2 = log st ++ new
                            /\ names_fetched new = name :: rest.*1
                            /\ drains_started new = path :: rest.*2)
            /\ (forall n, n ∉ name :: rest.*1 -> m' !! n = all_data !! n)
            /\ (forall n p, (n, p) ∈ (name, path) :: rest ->
                  drained_in_run fuel (log st) (log st2) n p (m' !! n))).
  { intros items m' stm st2 msg new' Ho Hstm Hdom Hl Hm1 Hm2 Hn1 Hn2 Hother Hin.
    destruct Hlog as (newd & Hl1 & Hf & Hd).
    { destruct Ho as [->|[[e ->] _]]; done. }
    simpl in Hl1. repeat split.
    - rewrite Hdom, dom_insert_L. set_solver.
    - exists ([MsgFetching name] ++ newd ++ [msg] ++ new').
      rewrite Hl, Hstm, Hl1.
      rewrite !names_fetched_app, !drains_started_app, Hf, Hd, Hm1, Hm2, Hn1, Hn2.
      by rewrite <- !app_assoc.
    - intros n Hn. apply not_elem_of_cons in Hn as [Hne Hn].
      rewrite Hother by done. by rewrite lookup_insert_ne.
    - intros n p [Heq|Hnp]%elem_of_cons.
      + simplify_eq. exists (logger (MsgFetching name) st), [], ([msg] ++ new').
        rewrite E. simpl. split; [done|]. split.
        { by rewrite Hl, Hstm, <- app_assoc. }
        rewrite Hother by done. rewrite lookup_insert_eq.
        destruct Ho as [->|[[e ->] ->]]; done.
      + destruct (Hin n p Hnp) as (stx & pre & post & Hlx & Hl2 & Hm).
        exists stx, ([MsgFetching name] ++ newd ++ [msg] ++ pre), post.
        split; [|done]. rewrite Hlx, Hstm, Hl1. by rewrite <- !app_assoc. }
  destruct o as [items|e|].
  - specialize (IH (<[name := items]> all_data)
                  (logger (MsgFetched name (length items)) st1) Hrest).
    simpl in IH. destruct (for_endpoints _ _ _) as [[m'| |] st2]; simpl in *.
    + destruct IH as (Hdom & (new' & Hl & Hn1 & Hn2) & Hother & Hin).
      eapply (Hhead items m' (logger (MsgFetched name (length items)) st1));
        eauto.
    + done.
    + destruct IH as (n & p & st3 & Hnp & Hout).
      exists n, p, st3. split; [by apply elem_of_cons; right|done].
  - specialize (IH (<[name := @nil pyval]> all_data)
                  (logger (MsgFailed name e) st1) Hrest).
    simpl in IH. destruct (for_endpoints _ _ _) as [[m'| |] st2]; simpl in *.
    + destruct IH as (Hdom & (new' & Hl & Hn1 & Hn2) & Hother & Hin).
      eapply (Hhead [] m' (logger (MsgFailed name e) st1)); eauto.
    + done.
    + destruct IH as (n & p & st3 & Hnp & Hout).
      exists n, p, st3. split; [by apply elem_of_cons; right|done].
  - simpl. exists name, path, (logger (MsgFetching name) st).
    split; [by apply elem_of_cons; left|]. by rewrite E.
Qed.

End Aggregate.

(** C1. [get_all_data] never raises.  When it returns, the keys of its
    result are exactly the eleven endpoint names; it has announced the
    eleven names once each in the declared order and started the drain of
    the eleven paths once each in that order; and under each name it has
    stored what the drain of that name's path returned, or the empty list
    when that drain raised.  It can fail to return only because one of the
    drains does not. *)
Theorem get_all_data_isolates_failures `{T : Transport} fuel st :
  let r := get_all_data fuel st in
  match r.1 with
  | Raise _ => False
  | OutOfFuel =>
      exists name path st1,
        (name, path) ∈ endpoint_table
        /\ (get_paginated_data fuel path None st1).1 = OutOfFuel
  | Ret all_data =>
      dom all_data =
        list_to_set ["users"; "trainings"; "sessions"; "attendees";
                     "registration_folders"; "certification_folders";
                     "organisms"; "activities"; "evaluations"; "invoices";
                     "payments"]
      /\ (exists new,
            log r.2 = log st ++ new
            /\ names_fetched new =
                 ["users"; "trainings"; "sessions"; "attendees";
                  "registration_folders"; "certification_folders";
                  "organisms"; "activities"; "evaluations"; "invoices";
                  "payments"]
            /\ drains_started new =
                 ["/api/users"; "/api/trainings"; "/api/sessions";
                  "/api/attendees"; "/api/registrationFolders";
                  "/api/certificationFolders"; "/api/organisms";
                  "/api/activities"; "/api/evaluations"; "/api/invoices";
                  "/api/payments"])
      /\ (forall name path, (name, path) ∈ endpoint_table ->
            exists (st1 : state) pre post,
              log st1 = log st ++ pre ++ [MsgFetching name]
              /\ log r.2 = log (get_paginated_data fuel path None st1).2 ++ post
              /\ match (get_paginated_data fuel path None st1).1 with
                 | Ret items => all_data !! name = Some items
                 | Raise _ => all_data !! name = Some []
                 | OutOfFuel => False
                 end)
  end.
Proof.
  unfold get_all_data. rewrite endpoints_table.
  assert (Hnd : NoDup endpoint_table.*1).
  { apply (bool_decide_unpack _). by vm_compute. }
  pose proof (for_endpoints_spec fuel endpoint_table ∅ (logger MsgStart st) Hnd)
    as H. cbv zeta in H.
  destruct (for_endpoints (table_methods fuel endpoint_table) ∅
              (logger MsgStart st)) as [[m| |] st1];
    cbn [fst snd] in *; [|done|done].
  destruct H as (Hdom & (new & Hl & Hn1 & Hn2) & _ & Hin).
  split; [|split].
  - rewrite Hdom, dom_empty_L. by rewrite (right_id_L ∅ (∪)).
  - exists ([MsgStart] ++ new ++ [MsgDone]).
    cbn [log logger]. rewrite Hl. cbn [log logger].
    rewrite !names_fetched_app, !drains_started_app, Hn1, Hn2.
    by rewrite <- !app_assoc.
  - intros name path Hnp.
    destruct (Hin name path Hnp) as (stx & pre & post & Hlx & Hl2 & Hm).
    exists stx, ([MsgStart] ++ pre), (post ++ [MsgDone]).
    cbn [log logger] in *. split; [by rewrite Hlx, <- !app_assoc|].
    split; [|done]. by rewrite Hl2, <- app_assoc.
Qed.

(** ** One page *)

Section Page.

Lemma page_step_list (l all_data : list pyval) :
  page_step (VList l) (Ok (VInt 100)) all_data =
  match l with
  | [] => Break all_data
  | _ => if Z.of_nat (length l) <? 100
         then Break (all_data ++ l) else Continue (all_data ++ l)
  end.
Proof. by destruct l. Qed.

Lemma page_step_data_list kvs (l all_data : list pyval) :
  dict_get "data" kvs = Some (VList l) ->
  page_step (VDict kvs) (Ok (VInt 100)) all_data =
  page_step (VList l) (Ok (VInt 100)) all_data.
Proof. intros H. unfold page_step. simpl. by rewrite H. Qed.

Lemma step_data_list (l all_data : list pyval) :
  step_data (page_step (VList l) (Ok (VInt 100)) all_data) = Some (all_data ++ l).
Proof.
  rewrite page_step_list. destruct l as [|x l]; [by rewrite app_nil_r|].
  by destruct (_ <? _).
Qed.

Lemma page_step_bare_object kvs (all_data : list pyval) :
  dict_get "data" kvs = None -> kvs <> [] ->
  page_step (VDict kvs) (Ok (VInt 100)) all_data =
  if Z.of_nat (length (dict_keys kvs)) <? 100
  then Break (all_data ++ [VDict kvs]) else Continue (all_data ++ [VDict kvs]).
Proof.
  intros H Hne. unfold page_step. simpl. rewrite H. simpl.
  destruct kvs; [done|]. simpl. by destruct (_ <? _).
Qed.

Lemma wide_object_shape :
  is_list wide_object = false /\ dict_get "data" wide_fields = None
  /\ py_truthy wide_object = true /\ py_len wide_object = Ok 100.
Proof. by vm_compute. Qed.

Lemma page_step_wide (all_data : list pyval) :
  page_step wide_object (Ok (VInt 100)) all_data = Continue (all_data ++ [wide_object]).
Proof.
  destruct wide_object_shape as (_ & _ & Ht & Hlen).
  assert (Hs : select_data wide_object = Ok wide_object) by (by vm_compute).
  assert (Hi : as_items wide_object = [wide_object]) by (by vm_compute).
  unfold page_step. by rewrite Hs, Ht, Hlen, Hi.
Qed.

End Page.

(** C3, as the code has it.  A response that is a list is the page.  A JSON
    object with a field [data] gives that field's value: a list is the page;
    a false value ([null], [false], [0], an empty string or object) is an
    empty page; a non-empty string or object is a page of that one item; and
    on [true] or a number other than zero the size test raises [TypeError],
    so that no page comes out.  A non-empty JSON object without a field
    [data] is a page of one item, the object itself; the empty object is an
    empty page.  So [{data: [{id: 1}]}] gives [[{id: 1}]] and [{id: 1}] gives
    [[{id: 1}]].  On [null], a boolean or a number the membership test raises
    [TypeError].  A string that contains [data] raises [TypeError], the empty
    string is an empty page and any other string a page of one item. *)
Theorem page_normalization :
  (forall l all_data,
      step_data (page_step (VList l) (Ok (VInt 100)) all_data) = Some (all_data ++ l))
  /\ (forall kvs l all_data,
        dict_get "data" kvs = Some (VList l) ->
        step_data (page_step (VDict kvs) (Ok (VInt 100)) all_data)
        = Some (all_data ++ l))
  /\ (forall kvs v all_data,
        dict_get "data" kvs = Some v -> py_truthy v = false ->
        page_step (VDict kvs) (Ok (VInt 100)) all_data = Break all_data)
  /\ (forall kvs v all_data,
        dict_get "data" kvs = Some v -> py_truthy v = true ->
        is_list v = false -> is_scalar v = false ->
        step_data (page_step (VDict kvs) (Ok (VInt 100)) all_data)
        = Some (all_data ++ [v]))
  /\ (forall kvs v all_data,
        dict_get "data" kvs = Some v -> py_truthy v = true -> is_scalar v = true ->
        exists msg,
          page_step (VDict kvs) (Ok (VInt 100)) all_data = Fail (TypeError msg))
  /\ (forall kvs all_data,
        dict_get "data" kvs = None -> kvs <> [] ->
        step_data (page_step (VDict kvs) (Ok (VInt 100)) all_data)
        = Some (all_data ++ [VDict kvs]))
  /\ (forall all_data,
        page_step (VDict []) (Ok (VInt 100)) all_data = Break all_data)
  /\ (forall v all_data,
        is_scalar v = true ->
        exists msg, page_step v (Ok (VInt 100)) all_data = Fail (TypeError msg))
  /\ (forall s all_data,
        if str_contains "data" s
        then exists msg,
               page_step (VStr s) (Ok (VInt 100)) all_data = Fail (TypeError msg)
        else if String.eqb s ""
             then page_step (VStr s) (Ok (VInt 100)) all_data = Break all_data
             else step_data (page_step (VStr s) (Ok (VInt 100)) all_data)
                  = Some (all_data ++ [VStr s]))
  /\ page_step (VDict [("data", VList [VDict [("id", VInt 1)]])]) (Ok (VInt 100)) []
     = Break [VDict [("id", VInt 1)]]
  /\ page_step (VDict [("id", VInt 1)]) (Ok (VInt 100)) []
     = Break [VDict [("id", VInt 1)]].
Proof.
  split; [apply step_data_list|].
  split. { intros kvs l a H. rewrite (page_step_data_list _ _ _ H).
           apply step_data_list. }
  split. { intros kvs v a H Ht. unfold page_step. simpl. by rewrite H, Ht. }
  split.
  { intros kvs v a H Ht Hl Hs. unfold page_step. simpl. rewrite H, Ht. simpl.
    destruct v; try discriminate; simpl; by destruct (_ <? _). }
  split.
  { intros kvs v a H Ht Hs. unfold page_step. simpl. rewrite H, Ht. simpl.
    destruct v; try discriminate; simpl; eauto. }
  split.
  { intros kvs a H Hne. rewrite page_step_bare_object by done.
    by destruct (_ <? _). }
  split; [done|].
  split. { intros v a Hs. destruct v; try discriminate; simpl; eauto. }
  split; [|done].
  intros s a. unfold page_step. simpl.
  destruct (str_contains "data" s); simpl; [eauto|].
  destruct (String.eqb s ""); simpl; [done|]. by destruct (_ <? _).
Qed.

(** The third case of C3 as the specification words it, every response that
    is neither a list nor has a field [data] becoming a page of one item,
    fails on the empty object, which the loop takes for an empty page, and
    on a number, on which the membership test raises. *)
Lemma page_normalization_counterexample :
  ~ (forall response all_data,
       is_list response = false ->
       (forall kvs, response = VDict kvs -> dict_get "data" kvs = None) ->
       step_data (page_step response (Ok (VInt 100)) all_data)
       = Some (all_data ++ [response]))
  /\ page_step (VDict []) (Ok (VInt 100)) [] = Break []
  /\ page_step (VInt 5) (Ok (VInt 100)) [] = Fail (TypeError "argument is not iterable").
Proof.
  split; [|done].
  intros H. specialize (H (VDict []) [] eq_refl).
  discriminate H. by intros kvs [= <-].
Qed.

(** ** The drain against a scripted endpoint *)

Section Scripted.
Variable src : Z -> pyval.

Lemma deref_page_state `{T : Transport} endpoint l page (st : state) :
  deref l (logger (MsgPage page endpoint)
             (setitem l "limit" (VInt 100) (setitem l "page" (VInt page) st)))
  = paged (deref l st) page.
Proof.
  unfold deref at 1. simpl. rewrite lookup_insert_eq. simpl.
  unfold setitem at 1. by rewrite deref_set_heap.
Qed.

Lemma scripted_request_page endpoint l page (st : @state (scripted src)) :
  (request_page endpoint l page st).1 = Ok (src page).
Proof.
  unfold request_page, _make_request, _wait_for_rate_limit.
  cbn [time_time scripted mock world set_world session_request self
       set_last_request_time record_request].
  rewrite deref_page_state. unfold page_source. rewrite paged_page.
  cbn [fst snd]. destruct (time_ltb _ _); reflexivity.
Qed.

(** One pass against the scripted endpoint: the page served is [src page]. *)
Lemma scripted_loop_body endpoint l page all_data (st : @state (scripted src)) :
  exists st1,
    loop_body endpoint l page all_data st
    = (page_step (src page) (Ok (VInt 100)) all_data, st1)
    /\ sent st1 = sent st ++ [("GET", base_url (self st) +:+ endpoint,
                               paged (deref l st) page)]
    /\ deref l st1 = paged (deref l st) page
    /\ base_url (self st1) = base_url (self st).
Proof.
  rewrite loop_body_unfold.
  pose proof (scripted_request_page endpoint l page st) as H1.
  destruct (request_page endpoint l page st) as [r st1] eqn:E.
  simpl in H1. subst r.
  apply request_page_frame in E as (Hh & Hs & Hb & _).
  exists st1. repeat split; try done.
  by apply (deref_heap _ _ _ _ Hh).
Qed.

End Scripted.

Lemma page_step_select response (l all_data : list pyval) lim :
  select_data response = Ok (VList l) ->
  page_step response lim all_data = page_step (VList l) lim all_data.
Proof. intros H. unfold page_step. by rewrite H. Qed.

Lemma page_step_full (l all_data : list pyval) :
  length l = 100%nat ->
  page_step (VList l) (Ok (VInt 100)) all_data = Continue (all_data ++ l).
Proof.
  intros H. rewrite page_step_list. destruct l; [done|]. by rewrite H.
Qed.

Lemma page_step_short (l all_data : list pyval) :
  (length l < 100)%nat ->
  page_step (VList l) (Ok (VInt 100)) all_data = Break (all_data ++ l).
Proof.
  intros H. rewrite page_step_list. destruct l; [by rewrite app_nil_r|].
  by replace (Z.of_nat _ <? 100) with true by lia.
Qed.

Section ScriptedDrain.
Variable src : Z -> pyval.

Lemma scripted_continue endpoint l page all_data a fuel (st : @state (scripted src)) :
  page_step (src page) (Ok (VInt 100)) all_data = Continue a ->
  exists st1,
    drain_loop (S fuel) endpoint l page all_data st
    = drain_loop fuel endpoint l (page + 1) a st1
    /\ sent st1 = sent st ++ [("GET", base_url (self st) +:+ endpoint,
                               paged (deref l st) page)]
    /\ deref l st1 = paged (deref l st) page
    /\ base_url (self st1) = base_url (self st).
Proof.
  intros Hp.
  destruct (scripted_loop_body src endpoint l page all_data st)
    as (st1 & E & Hs & Hd & Hb).
  exists st1. simpl. by rewrite E, Hp.
Qed.

Lemma scripted_break endpoint l page all_data a fuel (st : @state (scripted src)) :
  page_step (src page) (Ok (VInt 100)) all_data = Break a ->
  exists st1,
    drain_loop (S fuel) endpoint l page all_data st = (Ret a, st1)
    /\ sent st1 = sent st ++ [("GET", base_url (self st) +:+ endpoint,
                               paged (deref l st) page)].
Proof.
  intros Hp.
  destruct (scripted_loop_body src endpoint l page all_data st)
    as (st1 & E & Hs & Hd & Hb).
  exists st1. simpl. by rewrite E, Hp.
Qed.

(** A drain of two full pages and a short or empty third one. *)
Lemma scripted_three_pages endpoint fuel (w : Z) (p1 p2 p3 : list pyval) :
  select_data (src 1) = Ok (VList p1) ->
  select_data (src 2) = Ok (VList p2) ->
  select_data (src 3) = Ok (VList p3) ->
  length p1 = 100%nat -> length p2 = 100%nat -> (length p3 < 100)%nat ->
  let r := get_paginated_data (T := scripted src) (S (S (S fuel))) endpoint None
             (fresh_state (T := scripted src) w) in
  r.1 = Ret (p1 ++ p2 ++ p3)
  /\ sent r.2 = page_requests ("https://www.wedof.fr" +:+ endpoint) ∅ 1 3.
Proof.
  intros H1 H2 H3 L1 L2 L3. unfold get_paginated_data.
  cbn [params_or_new].
  destruct (new_dict (fresh_state (T := scripted src) w)) as [l st0] eqn:E0.
  assert (Hd0 : deref l st0 = ∅ /\ sent st0 = []
                /\ base_url (self st0) = "https://www.wedof.fr").
  { unfold new_dict in E0. simplify_eq. split; [|done].
    apply deref_set_heap. }
  destruct Hd0 as (Hd0 & Hs0 & Hb0).
  destruct (scripted_continue endpoint l 1 [] ([] ++ p1) (S (S fuel)) st0)
    as (st1 & E1 & Hs1 & Hd1 & Hb1).
  { by rewrite (page_step_select _ _ _ _ H1), page_step_full. }
  destruct (scripted_continue endpoint l (1 + 1) ([] ++ p1) (([] ++ p1) ++ p2)
              (S fuel) st1) as (st2 & E2 & Hs2 & Hd2 & Hb2).
  { by rewrite (page_step_select _ _ _ _ H2), page_step_full. }
  destruct (scripted_break endpoint l (1 + 1 + 1) (([] ++ p1) ++ p2)
              ((([] ++ p1) ++ p2) ++ p3) fuel st2) as (st3 & E3 & Hs3).
  { by rewrite (page_step_select _ _ _ _ H3), page_step_short. }
  rewrite E1, E2, E3. cbn [fst snd sent logger].
  split; [by rewrite <- app_assoc|].
  rewrite Hs3, Hd2, Hb2, Hs2, Hd1, Hb1, Hs1, Hd0, Hb0, Hs0.
  by rewrite !paged_paged.
Qed.

(** A drain whose first page is empty. *)
Lemma scripted_empty_first endpoint fuel (w : Z) :
  select_data (src 1) = Ok (VList []) ->
  let r := get_paginated_data (T := scripted src) (S fuel) endpoint None
             (fresh_state (T := scripted src) w) in
  r.1 = Ret [] /\ sent r.2 = page_requests ("https://www.wedof.fr" +:+ endpoint) ∅ 1 1.
Proof.
  intros H1. unfold get_paginated_data.
  cbn [params_or_new].
  destruct (new_dict (fresh_state (T := scripted src) w)) as [l st0] eqn:E0.
  assert (Hd0 : deref l st0 = ∅ /\ sent st0 = []
                /\ base_url (self st0) = "https://www.wedof.fr").
  { unfold new_dict in E0. simplify_eq. split; [|done].
    apply deref_set_heap. }
  destruct Hd0 as (Hd0 & Hs0 & Hb0).
  destruct (scripted_break endpoint l 1 [] [] fuel st0) as (st1 & E1 & Hs1).
  { by rewrite (page_step_select _ _ _ _ H1), page_step_list. }
  rewrite E1. cbn [fst snd sent logger].
  split; [done|]. by rewrite Hs1, Hd0, Hb0, Hs0.
Qed.

End ScriptedDrain.

(** C4. Against an endpoint whose pages have 100, 100 and 37 items the
    drain sends exactly three requests, for the pages 1, 2 and 3, and
    returns the 237 items in the order served; with 100, 100 and 0 items it
    sends the same three requests and returns the 200 items; with an empty
    first page it sends one request and returns the empty list.  The pages
    may come bare or under a [data] field. *)
Theorem drain_page_counts (envelope : list pyval -> pyval)
    (p1 p2 p3 : list pyval) (rest : list (list pyval)) endpoint fuel (w : Z) :
  (forall l, select_data (envelope l) = Ok (VList l)) ->
  length p1 = 100%nat -> length p2 = 100%nat -> length p3 = 37%nat ->
  (3 <= fuel)%nat ->
  let run (pages : list (list pyval)) :=
    get_paginated_data (T := scripted (successive (envelope <$> pages)))
      fuel endpoint None
      (fresh_state (T := scripted (successive (envelope <$> pages))) w) in
  let url := "https://www.wedof.fr" +:+ endpoint in
  ((run [p1; p2; p3]).1 = Ret (p1 ++ p2 ++ p3)
   /\ length (p1 ++ p2 ++ p3) = 237%nat
   /\ sent (run [p1; p2; p3]).2 = page_requests url ∅ 1 3
   /\ length (sent (run [p1; p2; p3]).2) = 3%nat)
  /\ ((run [p1; p2; []]).1 = Ret (p1 ++ p2)
      /\ length (p1 ++ p2) = 200%nat
      /\ sent (run [p1; p2; []]).2 = page_requests url ∅ 1 3
      /\ length (sent (run [p1; p2; []]).2) = 3%nat)
  /\ ((run ([] :: rest)).1 = Ret []
      /\ sent (run ([] :: rest)).2 = page_requests url ∅ 1 1
      /\ length (sent (run ([] :: rest)).2) = 1%nat).
Proof.
  intros Henv L1 L2 L3 Hfuel run url.
  destruct fuel as [|[|[|fuel]]]; [lia..|].
  split; [|split].
  - destruct (scripted_three_pages (successive (envelope <$> [p1; p2; p3]))
                endpoint fuel w p1 p2 p3) as [Hr Hs];
      [apply Henv..|done|done|lia|].
    unfold run, url. rewrite Hr, Hs. repeat split.
    rewrite !length_app. lia.
  - destruct (scripted_three_pages (successive (envelope <$> [p1; p2; []]))
                endpoint fuel w p1 p2 []) as [Hr Hs];
      [apply Henv..|done|done|simpl; lia|].
    unfold run, url. rewrite Hr, Hs, app_nil_r. repeat split.
    rewrite !length_app. lia.
  - destruct (scripted_empty_first (successive (envelope <$> ([] :: rest)))
                endpoint (S (S fuel)) w) as [Hr Hs]; [apply Henv|].
    unfold run, url. by rewrite Hr, Hs.
Qed.

(** ** Short pages and pages of one item *)

(** A pass that leaves the loop ends the drain in the state that pass
    reached: nothing is requested after it. *)
Lemma drain_loop_break `{T : Transport} fuel endpoint l page all_data st a st1 :
  loop_body endpoint l page all_data st = (Break a, st1) ->
  drain_loop (S fuel) endpoint l page all_data st = (Ret a, st1).
Proof. intros H. simpl. by rewrite H. Qed.

(** A list of fewer than 100 items, bare or under [data], is appended and
    ends the drain with the request that fetched it. *)
Lemma short_list_page_stops `{T : Transport} fuel endpoint l page all_data st
    response (items : list pyval) :
  (request_page endpoint l page st).1 = Ok response ->
  select_data response = Ok (VList items) ->
  (length items < 100)%nat ->
  drain_loop (S fuel) endpoint l page all_data st
  = (Ret (all_data ++ items), (request_page endpoint l page st).2).
Proof.
  intros Hr Hs Hlen. apply drain_loop_break. rewrite loop_body_unfold.
  destruct (request_page endpoint l page st) as [r st1]. simpl in *. subst r.
  by rewrite (page_step_select _ _ _ _ Hs), page_step_short.
Qed.

(** C2 at a JSON object of a hundred fields.  The object is not a list and
    has no field [data], so it is appended as a page of one item; but the
    test of line 118 measures the object, not the page, finds 100, and the
    loop goes on: served once and followed by an empty page, the object
    costs a second request. *)
Theorem wide_object_page_continues (w : Z) endpoint :
  is_list wide_object = false
  /\ dict_get "data" wide_fields = None
  /\ as_items wide_object = [wide_object]
  /\ (forall all_data,
        page_step wide_object (Ok (VInt 100)) all_data
        = Continue (all_data ++ [wide_object]))
  /\ let r := get_paginated_data (T := scripted (successive [wide_object])) 2
                endpoint None
                (fresh_state (T := scripted (successive [wide_object])) w) in
     r.1 = Ret [wide_object]
     /\ sent r.2 = page_requests ("https://www.wedof.fr" +:+ endpoint) ∅ 1 2.
Proof.
  destruct wide_object_shape as (Hl & Hd & _ & _).
  split; [done|]. split; [done|]. split; [by vm_compute|].
  split; [apply page_step_wide|].
  unfold get_paginated_data. cbn [params_or_new].
  destruct (new_dict (fresh_state (T := scripted (successive [wide_object])) w))
    as [l st0] eqn:E0.
  assert (Hd0 : deref l st0 = ∅ /\ sent st0 = []
                /\ base_url (self st0) = "https://www.wedof.fr").
  { unfold new_dict in E0. simplify_eq. split; [|done].
    apply deref_set_heap. }
  destruct Hd0 as (Hd0 & Hs0 & Hb0).
  destruct (scripted_continue (successive [wide_object]) endpoint l 1 []
              ([] ++ [wide_object]) 1 st0) as (st1 & E1 & Hs1 & Hd1 & Hb1).
  { apply (page_step_wide []). }
  destruct (scripted_break (successive [wide_object]) endpoint l (1 + 1)
              ([] ++ [wide_object]) ([] ++ [wide_object]) 0 st1)
    as (st2 & E2 & Hs2).
  { done. }
  rewrite E1, E2. cbn [fst snd sent logger].
  split; [done|].
  rewrite Hs2, Hd1, Hb1, Hs1, Hd0, Hb0, Hs0. by rewrite paged_paged.
Qed.

(** ** Termination of the drain *)

Section Termination.
Variable src : Z -> pyval.

(** If the pages are lists, bare or under [data], and the page [m] places
    after [page] has fewer than 100 items, the loop returns within [m + 1]
    passes. *)
Lemma scripted_loop_returns endpoint l (m : nat) :
  forall page all_data (st : @state (scripted src)),
  (forall p, page <= p -> exists items, select_data (src p) = Ok (VList items)) ->
  (exists items, select_data (src (page + Z.of_nat m)) = Ok (VList items)
                 /\ (length items < 100)%nat) ->
  exists items, (drain_loop (S m) endpoint l page all_data st).1 = Ret items.
Proof.
  induction m as [|m IH]; intros page all_data st Hlists Hshort.
  - destruct Hshort as (items & Hs & Hlen).
    replace (page + Z.of_nat 0) with page in Hs by lia.
    destruct (scripted_break src endpoint l page all_data (all_data ++ items) 0 st)
      as (st1 & E & _).
    { by rewrite (page_step_select _ _ _ _ Hs), page_step_short. }
    exists (all_data ++ items). by rewrite E.
  - destruct (Hlists page) as (items & Hs); [lia|].
    destruct (page_step (VList items) (Ok (VInt 100)) all_data) as [a|a|e] eqn:Hp.
    + destruct (scripted_continue src endpoint l page all_data a (S m) st)
        as (st1 & E & _).
      { by rewrite (page_step_select _ _ _ _ Hs). }
      rewrite E. apply IH.
      * intros p Hle. apply Hlists. lia.
      * destruct Hshort as (items' & Hs' & Hlen). exists items'.
        split; [|done].
        by replace (page + 1 + Z.of_nat m) with (page + Z.of_nat (S m)) by lia.
    + destruct (scripted_break src endpoint l page all_data a (S m) st)
        as (st1 & E & _).
      { by rewrite (page_step_select _ _ _ _ Hs). }
      exists a. by rewrite E.
    + rewrite page_step_list in Hp. destruct items; [done|].
      by destruct (_ <? _).
Qed.

(** A drain of list pages ends once a page of fewer than 100 items (empty
    or not) is served: with [n] the number of that page, fuel [n] is
    enough. *)
Lemma drain_of_lists_returns endpoint (w : Z) (n : nat) :
  (0 < n)%nat ->
  (forall p, 1 <= p -> exists items, select_data (src p) = Ok (VList items)) ->
  (exists items, select_data (src (Z.of_nat n)) = Ok (VList items)
                 /\ (length items < 100)%nat) ->
  exists items,
    (get_paginated_data (T := scripted src) n endpoint None
       (fresh_state (T := scripted src) w)).1 = Ret items.
Proof.
  intros Hn Hlists Hshort. destruct n as [|m]; [lia|].
  unfold get_paginated_data. cbn [params_or_new].
  destruct (new_dict (fresh_state (T := scripted src) w)) as [l st0].
  destruct (scripted_loop_returns endpoint l m 1 [] st0) as (items & E).
  - done.
  - destruct Hshort as (items & Hs & Hlen). exists items. split; [|done].
    by replace (1 + Z.of_nat m) with (Z.of_nat (S m)) by lia.
  - exists items. destruct (drain_loop (S m) endpoint l 1 [] st0) as [o st1].
    simpl in E. by subst o.
Qed.

End Termination.

(** The loop against an endpoint that serves the hundred-field object on
    every page: each pass asks for the next page. *)
Lemma wide_loop_never_returns endpoint l (fuel : nat) :
  forall page all_data (st : @state (scripted (fun _ => wide_object))),
  (drain_loop fuel endpoint l page all_data st).1 = OutOfFuel
  /\ length (sent (drain_loop fuel endpoint l page all_data st).2)
     = (length (sent st) + fuel)%nat.
Proof.
  induction fuel as [|fuel IH]; intros page all_data st.
  { simpl. split; [done|lia]. }
  destruct (scripted_continue (fun _ => wide_object) endpoint l page all_data
              (all_data ++ [wide_object]) fuel st) as (st1 & E & Hs & _).
  { apply page_step_wide. }
  rewrite E. destruct (IH (page + 1) (all_data ++ [wide_object]) st1) as [Ho Hl].
  split; [done|]. rewrite Hl, Hs, length_app. simpl. lia.
Qed.

(** C9 at an endpoint that answers every page with the same JSON object of
    a hundred fields.  Every page is a page of one item, fewer than 100, yet
    the drain does not end: whatever the fuel, it is spent, with one request
    sent per unit of fuel. *)
Theorem wide_object_drain_never_ends (fuel : nat) endpoint (w : Z) :
  as_items wide_object = [wide_object]
  /\ let r := get_paginated_data (T := scripted (fun _ => wide_object)) fuel
                endpoint None
                (fresh_state (T := scripted (fun _ => wide_object)) w) in
     r.1 = OutOfFuel /\ length (sent r.2) = fuel.
Proof.
  split; [by vm_compute|].
  unfold get_paginated_data. cbn [params_or_new].
  destruct (new_dict (fresh_state (T := scripted (fun _ => wide_object)) w))
    as [l st0] eqn:E0.
  assert (Hs0 : sent st0 = []).
  { unfold new_dict in E0. by simplify_eq. }
  destruct (wide_loop_never_returns endpoint l fuel 1 [] st0) as [Ho Hl].
  destruct (drain_loop fuel endpoint l 1 [] st0) as [o st1].
  simpl in *. subst o. simpl. by rewrite Hl, Hs0.
Qed.

(** ** What the fetcher returns *)

Section Answer.
Context `{T : Transport}.

Lemma except_clauses_result bound e (st st' : state) :
  (except_clauses bound e st).1 = (except_clauses bound e st').1.
Proof. unfold except_clauses. destruct e, bound; reflexivity. Qed.

Lemma try_block_result r (st st' : state) :
  (try_block r st).1 = (try_block r st').1.
Proof.
  unfold try_block.
  destruct (raise_for_status r); [|apply except_clauses_result].
  destruct (header_get _ _) as [v|].
  - destruct (py_int _ v) as [n|e0]; [|apply except_clauses_result].
    destruct (json r); [reflexivity|apply except_clauses_result].
  - destruct (json r); [reflexivity|apply except_clauses_result].
Qed.

(** The result of [_make_request] is decided by the session's answer. *)
Lemma make_request_result method endpoint params st :
  (_make_request method endpoint params st).1 =
  match session_answer method endpoint params st with
  | inl e => (except_clauses None e st).1
  | inr r => (try_block r st).1
  end.
Proof.
  unfold _make_request, session_answer.
  destruct (wait_frame st) as (_ & _ & _ & Hb). rewrite Hb.
  destruct (session_request _ _ _ _) as [[e|r] w]; simpl.
  - apply except_clauses_result.
  - apply try_block_result.
Qed.



(** A transport failure comes out of [_make_request] as it is. *)
Lemma transport_failure_raised method endpoint params st kind msg :
  session_answer method endpoint params st = inl (RequestException kind msg) ->
  (_make_request method endpoint params st).1 = Err (RequestException kind msg).
Proof. intros H. by rewrite make_request_result, H. Qed.

(** A status from 400 to 599 comes out as [HTTPError]. *)
Lemma http_status_raised method endpoint params st r :
  session_answer method endpoint params st = inr r ->
  400 <= status_code r < 600 ->
  (_make_request method endpoint params st).1
  = Err (HTTPError (status_code r) (text r)).
Proof.
  intros H Hs. rewrite make_request_result, H. unfold try_block, raise_for_status.
  replace (400 <=? status_code r) with true by lia.
  by replace (status_code r <? 600) with true by lia.
Qed.


(** Two responses that differ in their headers only, each with a readable
    rate header or none, give the same result. *)
Lemma rate_header_advisory r r' (st st' : state) :
  status_code r = status_code r' -> text r = text r' -> json r = json r' ->
  rate_header_readable r -> rate_header_readable r' ->
  (try_block r st).1 = (try_block r' st').1.
Proof.
  unfold try_block, raise_for_status, rate_header_readable.
  intros -> -> -> H H'.
  destruct (_ && _); [reflexivity|].
  destruct (header_get _ (headers r)) as [v|];
    destruct (header_get _ (headers r')) as [v'|];
    repeat match goal with H : exists _, _ |- _ => destruct H as [? ->] end;
    destruct (json r') as [val|e']; try reflexivity; by destruct e'.
Qed.



End Answer.

(** ** Failures of a drain *)

Section Failures.
Context `{T : Transport}.






End Failures.



(** C6 at a successful response whose rate header is not a number: the same
    response without the header is returned, with it the fetcher raises
    [ValueError], and so does the accessor that drains the endpoint. *)
Theorem rate_header_value_decides_result :
  let body := VList [VDict [("id", VInt 1)]] in
  let plain := ok_json [] body in
  let odd := ok_json [("X-RateLimit-Remaining", "unlimited")] body in
  status_code odd = status_code plain /\ json odd = json plain
  /\ (_make_request (T := mock (fun _ _ => inr plain)) "GET" "/api/users" ∅
        (fresh_state (T := mock (fun _ _ => inr plain)) 0)).1 = Ok body
  /\ (_make_request (T := mock (fun _ _ => inr odd)) "GET" "/api/users" ∅
        (fresh_state (T := mock (fun _ _ => inr odd)) 0)).1
     = Err (ValueError "invalid literal for int()")
  /\ (get_users (T := mock (fun _ _ => inr odd)) 1
        (fresh_state (T := mock (fun _ _ => inr odd)) 0)).1
     = Raise (ValueError "invalid literal for int()").
Proof. by vm_compute. Qed.


(** ** The interval on an exact clock *)

(** On the scripted clock, which counts whole milliseconds and moves only
    when the client sleeps, the time stamp a call leaves is at least 600
    after the one it found. *)
Lemma scripted_clock_interval server (st : @state (mock server)) :
  min_request_interval (self st) = 600 ->
  last_request_time (self st) + 600
  <= last_request_time (self (_wait_for_rate_limit st))
  /\ world (_wait_for_rate_limit st) = last_request_time (self (_wait_for_rate_limit st))
  /\ world st <= world (_wait_for_rate_limit st).
Proof.
  intros Hi. unfold _wait_for_rate_limit. simpl. rewrite Hi.
  destruct (world st - last_request_time (self st) <? 600) eqn:E; simpl; lia.
Qed.

(** ** The properties on concrete runs *)

Example py_int_plain : py_int 4300 "4" = Ok 4.
Proof. reflexivity. Qed.

Example py_int_spaces_sign : py_int 4300 " -1_000 " = Ok (-1000).
Proof. reflexivity. Qed.

Example py_int_word : py_int 4300 "unlimited" = Err invalid_literal.
Proof. reflexivity. Qed.

Example py_int_decimal_point : py_int 4300 "4.0" = Err invalid_literal.
Proof. reflexivity. Qed.

(** The blanks are stripped, the separators 28 to 31 are not. *)
Example py_int_blanks :
  py_int 4300 (String "009"%char (String "160"%char "4")) = Ok 4
  /\ py_int 4300 (String "031"%char "4") = Err invalid_literal
  /\ py_int 4300 (String "4"%char (String "028"%char "")) = Err invalid_literal.
Proof. by vm_compute. Qed.

(** A literal of 4301 digits is refused under the limit of 4300, also with
    something after it, and read when there is no limit. *)
Example py_int_many_digits :
  let long := string_of_list_ascii (repeat "1"%char 4301) in
  py_int 4300 long = Err exceeds_limit
  /\ py_int 4300 (long +:+ "x") = Err exceeds_limit
  /\ py_int 4300 (long +:+ "_") = Err invalid_literal
  /\ py_int 0 (long +:+ "x") = Err invalid_literal
  /\ (exists n, py_int 0 long = Ok n).
Proof. vm_compute. split_and!; eauto. Qed.

(** With the attendees down, the aggregate has its eleven keys, the empty
    list under [attendees] and two records under every other name. *)
Example aggregate_with_attendees_down :
  let r := get_all_data (T := mock attendees_down) 1
             (fresh_state (T := mock attendees_down) 0) in
  match r.1 with
  | Ret all_data =>
      size all_data = 11%nat
      /\ all_data !! "attendees" = Some []
      /\ all_data !! "users" = Some (records 1 2)
      /\ all_data !! "payments" = Some (records 1 2)
  | _ => False
  end.
Proof. by vm_compute. Qed.

Lemma drain_page_counts_witness :
  let T3 := scripted (successive (VList <$> [records 1 100; records 101 100;
                                             records 201 37])) in
  let r := get_paginated_data (T := T3) 3 "/api/users" None
             (fresh_state (T := T3) 0) in
  r.1 = Ret (records 1 100 ++ records 101 100 ++ records 201 37)
  /\ length (sent r.2) = 3%nat.
Proof.
  destruct (drain_page_counts VList (records 1 100) (records 101 100)
              (records 201 37) [] "/api/users" 3 0)
    as [(H1 & _ & _ & H2) _];
    [reflexivity | reflexivity | reflexivity | reflexivity | lia |].
  exact (conj H1 H2).
Defined.

Lemma drain_mutates_caller_params_witness :
  let T2 := scripted (successive [VList (records 1 100); VList (records 101 5)]) in
  let st : @state T2 :=
    {| world := 0; self := init "key" "https://www.wedof.fr";
       heap := {[ 1%positive := caller_params ]}; log := []; sent := [] |} in
  let r := get_paginated_data (T := T2) 5 "/api/users" (Some 1%positive) st in
  exists n : nat,
    (0 < n)%nat
    /\ heap r.2 !! 1%positive
       = Some (<["limit" := VInt 100]> (<["page" := VInt (Z.of_nat n)]> caller_params))
    /\ last (sent r.2)
       = Some ("GET", "https://www.wedof.fr" +:+ "/api/users",
               paged caller_params (Z.of_nat n)).
Proof.
  intros T2 st r.
  destruct (drain_mutates_caller_params (T := T2) 5 "/api/users"
              (Some 1%positive) st) as (n & Hn & H & _).
  { vm_compute. discriminate. }
  destruct (H 1%positive caller_params eq_refl eq_refl) as (H1 & _ & _ & H2).
  { apply insert_non_empty. }
  exists n. exact (conj Hn (conj H1 H2)).
Defined.



(** ** Further properties of the fetcher *)

(** X1. A call of the fetcher sends exactly one request, whether it returns
    or raises: to the endpoint joined to the base URL, with the method and
    the parameters it was given.  There is no retry.  It changes no
    dictionary of parameters and not the base URL. *)
Theorem fetcher_sends_one_request `{T : Transport} method endpoint params st :
  let r := _make_request method endpoint params st in
  sent r.2 = sent st ++ [(method, urljoin (base_url (self st)) endpoint, params)]
  /\ heap r.2 = heap st
  /\ base_url (self r.2) = base_url (self st).
Proof.
  intros r.
  destruct (make_request_frame method endpoint params st r.1 r.2)
    as (Hh & Hs & Hb & _); [apply surjective_pairing|done].
Qed.

Section FetcherLog.
Context `{T : Transport}.

(** [_make_request] from the answer of the session on. *)
Lemma make_request_answered method endpoint params st :
  exists st2,
    log st2 = log st
    /\ _make_request method endpoint params st =
       match session_answer method endpoint params st with
       | inl e => except_clauses None e st2
       | inr r => try_block r st2
       end.
Proof.
  unfold _make_request, session_answer.
  destruct (wait_frame st) as (_ & Hl & _ & Hb). rewrite Hb.
  destruct (session_request _ _ _ _) as [a w]. simpl.
  eexists. split; [|reflexivity]. done.
Qed.

End FetcherLog.

(** X2. On a response whose status is no error, whose body decodes and whose
    rate header reads as the integer [n], the fetcher returns the body, and
    writes one warning with [n] to the log if [n < 5] and nothing
    otherwise. *)
Theorem rate_warning_below_five `{T : Transport} method endpoint params st r v n body :
  session_answer method endpoint params st = inr r ->
  raise_for_status r = Ok tt ->
  header_get "X-RateLimit-Remaining" (headers r) = Some v ->
  py_int int_max_str_digits v = Ok n ->
  json r = Ok body ->
  let res := _make_request method endpoint params st in
  res.1 = Ok body
  /\ log res.2 = log st ++ (if n <? 5 then [MsgRateLimitClose n] else []).
Proof.
  intros Ha Hs Hh Hi Hj res. unfold res.
  destruct (make_request_answered method endpoint params st) as (st2 & Hl & ->).
  rewrite Ha. unfold try_block. rewrite Hs, Hh, Hi, Hj.
  destruct (n <? 5); simpl; rewrite Hl; [done|by rewrite app_nil_r].
Qed.

(** X3. A response with a status from 400 to 599 makes the fetcher raise
    [HTTPError] and write one error record with the status and the body
    text, whatever its headers and body are: the rate header is not read. *)
Theorem http_error_raised_and_logged `{T : Transport} method endpoint params st r :
  session_answer method endpoint params st = inr r ->
  400 <= status_code r < 600 ->
  let res := _make_request method endpoint params st in
  res.1 = Err (HTTPError (status_code r) (text r))
  /\ log res.2 = log st ++ [MsgHttpError (status_code r) (text r)].
Proof.
  intros Ha Hs res. unfold res.
  destruct (make_request_answered method endpoint params st) as (st2 & Hl & ->).
  rewrite Ha. unfold try_block, raise_for_status.
  replace (400 <=? status_code r) with true by lia.
  replace (status_code r <? 600) with true by lia.
  simpl. by rewrite Hl.
Qed.

(** X4. A status below 400 or from 600 on is no error to the fetcher: with a
    readable rate header (or none) and a body that decodes, a 1xx or 3xx
    response is returned like a 200. *)
Theorem other_statuses_are_returned `{T : Transport} method endpoint params st r body :
  session_answer method endpoint params st = inr r ->
  status_code r < 400 \/ 600 <= status_code r ->
  rate_header_readable r ->
  json r = Ok body ->
  (_make_request method endpoint params st).1 = Ok body.
Proof.
  intros Ha Hs Hh Hj. rewrite make_request_result, Ha.
  unfold try_block, raise_for_status, rate_header_readable in *.
  replace ((400 <=? status_code r) && (status_code r <? 600)) with false by lia.
  destruct (header_get _ _) as [v|]; [|by rewrite Hj].
  destruct Hh as [n ->]. by rewrite Hj.
Qed.

(** X5. When the session itself raises: an exception of the [requests]
    library is logged once and raised again; an exception of any other class
    is raised again with nothing logged; and an [HTTPError] from the session
    makes the handler fail on its unbound [response] with
    [UnboundLocalError], with nothing logged. *)
Theorem session_failures `{T : Transport} method endpoint params st e :
  session_answer method endpoint params st = inl e ->
  let res := _make_request method endpoint params st in
  match e with
  | RequestException _ _ =>
      res.1 = Err e /\ log res.2 = log st ++ [MsgRequestError e]
  | HTTPError _ _ =>
      res.1 = Err (UnboundLocalError "response") /\ log res.2 = log st
  | _ => res.1 = Err e /\ log res.2 = log st
  end.
Proof.
  intros Ha res. unfold res.
  destruct (make_request_answered method endpoint params st) as (st2 & Hl & ->).
  rewrite Ha. destruct e; simpl; by rewrite Hl.
Qed.

(** X6. The handling of a page raises on these responses and on no other:
    [null], a boolean, a number; a string that contains [data]; and a JSON
    object whose field [data] is [true] or a number other than zero.  Every
    such failure is a [TypeError]. *)
Theorem page_step_fails_iff response (all_data : list pyval) :
  ((exists e, page_step response (Ok (VInt 100)) all_data = Fail e)
   <-> match response with
      | VNone | VBool _ | VInt _ | VFloat _ => True
      | VStr s => str_contains "data" s = true
      | VList _ => False
      | VDict kvs =>
          match dict_get "data" kvs with
          | Some (VBool b) => b = true
          | Some (VInt n) => n <> 0
          | Some (VFloat f) => py_truthy (VFloat f) = true
          | _ => False
          end
      end)
  /\ (forall e, page_step response (Ok (VInt 100)) all_data = Fail e ->
                exists msg, e = TypeError msg).
Proof.
  split.
  - unfold page_step. destruct response as [|b|n|f|s|l|kvs]; simpl;
      try (split; [done|eauto]).
    + destruct (str_contains "data" s); simpl; [split; [done|eauto]|].
      split; [|done].
      destruct (negb (String.eqb s "")); simpl; [destruct (_ <? _)|];
        by intros [? ?].
    + split; [|done]. destruct l; simpl; [|destruct (_ <? _)]; by intros [? ?].
    + destruct (dict_get "data" kvs) as [v|] eqn:Hd.
      * destruct v as [|b|n|f|s|l|kvs']; simpl.
        -- split; [by intros [? ?]|done].
        -- destruct b; simpl;
             (split; [first [done | by intros [? ?]] | first [done | eauto]]).
        -- destruct (n =? 0) eqn:Hn; simpl.
           ++ apply Z.eqb_eq in Hn. split; [by intros [? ?]|done].
           ++ apply Z.eqb_neq in Hn. split; eauto.
        -- destruct f as [m e|neg|]; simpl; [|split; eauto..].
           destruct (negb (m =? 0)); simpl;
             (split; [first [done | by intros [? ?]] | first [done | eauto]]).
        -- split; [|done].
           destruct (negb (String.eqb s "")); simpl; [destruct (_ <? _)|];
             by intros [? ?].
        -- split; [|done].
           destruct l; simpl; [|destruct (_ <? _)]; by intros [? ?].
        -- split; [|done].
           destruct kvs'; simpl; [|destruct (_ <? _)]; by intros [? ?].
      * split; [|done].
        destruct kvs; simpl; [|destruct (_ <? _)]; by intros [? ?].
  - intros e. unfold page_step.
    destruct (select_data response) as [data|e'] eqn:Hs.
    + destruct (negb (py_truthy data)); [done|]. simpl.
      destruct data; simpl; try (intros [= <-]; eauto); destruct (_ <? _); done.
    + intros [= <-]. destruct response as [|b|n|f|s|l|kvs]; simpl in Hs;
        simplify_eq; eauto.
      * destruct (str_contains "data" s); simplify_eq. eauto.
      * destruct (dict_get "data" kvs); simplify_eq.
Qed.

(** ** Further properties of the drain *)

Section Collect.
Variable src : Z -> pyval.
Variable pages : Z -> list pyval.
Hypothesis src_pages : forall p, select_data (src p) = Ok (VList (pages p)).

Lemma scripted_loop_collects endpoint l (m : nat) :
  forall page all_data (st : @state (scripted src)) fuel,
  (forall p, page <= p < page + Z.of_nat m -> (100 <= length (pages p))%nat) ->
  (length (pages (page + Z.of_nat m)) < 100)%nat ->
  (m < fuel)%nat ->
  exists st',
    drain_loop fuel endpoint l page all_data st
    = (Ret (all_data ++ concat (pages <$> seqZ page (Z.of_nat (S m)))), st')
    /\ sent st' = sent st ++ page_requests (base_url (self st) +:+ endpoint)
                               (deref l st) page (S m).
Proof.
  induction m as [|m IH]; intros page all_data st fuel Hfull Hshort Hfuel;
    (destruct fuel as [|fuel]; [lia|]).
  - replace (page + Z.of_nat 0) with page in Hshort by lia.
    destruct (scripted_break src endpoint l page all_data
                (all_data ++ pages page) fuel st) as (st1 & E & Hs).
    { by rewrite (page_step_select _ _ _ _ (src_pages page)), page_step_short. }
    exists st1. rewrite E, Hs. split; [|done].
    rewrite (seqZ_cons page) by lia. simpl. by rewrite app_nil_r.
  - destruct (scripted_continue src endpoint l page all_data
                (all_data ++ pages page) fuel st) as (st1 & E & Hs & Hd & Hb).
    { rewrite (page_step_select _ _ _ _ (src_pages page)), page_step_list.
      specialize (Hfull page ltac:(lia)).
      destruct (pages page); [simpl in Hfull; lia|].
      by replace (Z.of_nat _ <? 100) with false by lia. }
    destruct (IH (page + 1) (all_data ++ pages page) st1 fuel)
      as (st' & E' & Hs'); [| |lia|].
    { intros p Hp. apply Hfull. lia. }
    { by replace (page + 1 + Z.of_nat m) with (page + Z.of_nat (S m)) by lia. }
    assert (Hseq : seqZ page (Z.of_nat (S (S m)))
                   = page :: seqZ (page + 1) (Z.of_nat (S m))).
    { rewrite seqZ_cons by lia. f_equal. f_equal; lia. }
    exists st'. rewrite E, E'. split.
    + rewrite Hseq. simpl. by rewrite <- app_assoc.
    + rewrite Hs', Hs, Hd, Hb, page_requests_paged, <- app_assoc. f_equal.
      unfold page_requests. by rewrite Hseq.
Qed.

End Collect.

(** X7. Against an endpoint whose pages are lists, bare or under [data],
    of which the first [n - 1] have 100 items or more and page [n] has fewer
    than 100 (possibly none), the drain returns the items of the pages 1 to
    [n] in the order served, after exactly the [n] requests for the pages 1
    to [n]. *)
Theorem drain_collects_pages_in_order (src : Z -> pyval) (pages : Z -> list pyval)
    endpoint (n fuel : nat) (st : @state (scripted src)) :
  (forall p, select_data (src p) = Ok (VList (pages p))) ->
  (0 < n <= fuel)%nat ->
  (forall p, 1 <= p < Z.of_nat n -> (100 <= length (pages p))%nat) ->
  (length (pages (Z.of_nat n)) < 100)%nat ->
  let r := get_paginated_data fuel endpoint None st in
  r.1 = Ret (concat (pages <$> seqZ 1 (Z.of_nat n)))
  /\ sent r.2 = sent st ++ page_requests (base_url (self st) +:+ endpoint) ∅ 1 n.
Proof.
  intros Hsrc Hn Hfull Hshort. destruct n as [|m]; [lia|].
  unfold get_paginated_data. cbn [params_or_new].
  destruct (new_dict_spec st) as (_ & Hh0 & Hs0 & _ & Hself).
  destruct (new_dict st) as [l st0]. simpl in *.
  destruct (scripted_loop_collects src pages Hsrc endpoint l m 1 [] st0 fuel)
    as (st' & E & Hs); [| |lia|].
  { intros p Hp. apply Hfull. lia. }
  { by replace (1 + Z.of_nat m) with (Z.of_nat (S m)) by lia. }
  rewrite E. simpl. split; [done|].
  by rewrite Hs, Hs0, Hself, (deref_heap _ _ _ _ Hh0).
Qed.

Section AggregateRequests.
Context `{T : Transport}.

Lemma get_paginated_data_base_url fuel endpoint params st :
  (get_paginated_data fuel endpoint params st).1 <> OutOfFuel ->
  base_url (self (get_paginated_data fuel endpoint params st).2)
  = base_url (self st).
Proof.
  unfold get_paginated_data.
  assert (H0 : base_url (self (params_or_new params st).2) = base_url (self st)).
  { unfold params_or_new. destruct params as [l|]; [|done].
    by destruct (Nat.eqb _ _). }
  destruct (params_or_new params st) as [l st0]. simpl in H0.
  destruct (drain_loop fuel endpoint l 1 [] st0) as [o st1] eqn:E.
  intros Ho.
  assert (Ho' : o <> OutOfFuel) by (by destruct o).
  apply drain_loop_frame in E as (k & _ & _ & _ & Hb); [|done].
  destruct o; simpl; by rewrite Hb, H0.
Qed.

(** A drain called without parameters: its requests, and what it leaves
    unchanged. *)
Lemma get_paginated_data_none_frame fuel endpoint st :
  let r := get_paginated_data fuel endpoint None st in
  r.1 <> OutOfFuel ->
  (exists n : nat,
      (0 < n)%nat
      /\ sent r.2 = sent st ++ page_requests (urljoin (base_url (self st)) endpoint)
                                 ∅ 1 n)
  /\ base_url (self r.2) = base_url (self st)
  /\ (forall l, is_Some (heap st !! l) -> heap r.2 !! l = heap st !! l).
Proof.
  intros r Hr.
  destruct (get_paginated_data_frame fuel endpoint None st Hr)
    as (n & Hn & Hh & Hs).
  fold r in Hh, Hs. cbn [params_or_new] in Hh, Hs.
  destruct (new_dict_spec st) as (Hfresh & Hh0 & Hs0 & _ & Hself).
  rewrite Hs0, Hself, (deref_heap _ _ _ _ Hh0) in Hs.
  rewrite Hh0 in Hh.
  split; [exists n; split; [lia|done]|]. split.
  - by apply get_paginated_data_base_url.
  - intros l [d Hl]. rewrite Hh.
    rewrite !lookup_insert_ne; [done| |]; intros <-; congruence.
Qed.

Lemma for_endpoints_requests fuel (table : list (string * string)) :
  forall all_data st,
  let r := for_endpoints (table_methods fuel table) all_data st in
  r.1 <> OutOfFuel ->
  (exists new,
      sent r.2 = sent st ++ new
      /\ (length table <= length new)%nat
      /\ Forall (fun req => exists name path i,
                   (name, path) ∈ table /\ 1 <= i
                   /\ req = ("GET", urljoin (base_url (self st)) path, paged ∅ i))
           new)
  /\ base_url (self r.2) = base_url (self st)
  /\ (forall l, is_Some (heap st !! l) -> heap r.2 !! l = heap st !! l).
Proof.
  induction table as [|[name path] rest IH]; intros all_data st r Hr.
  { simpl. split; [|done]. exists []. by rewrite app_nil_r. }
  unfold r in *. simpl in *.
  pose proof (get_paginated_data_none_frame fuel path
                (logger (MsgFetching name) st)) as Hd.
  destruct (get_paginated_data fuel path None (logger (MsgFetching name) st))
    as [o st1] eqn:E.
  assert (Hnext : forall (a : gmap string (list pyval)) msg,
            o <> OutOfFuel ->
            (for_endpoints (table_methods fuel rest) a (logger msg st1)).1
            <> OutOfFuel ->
            let r' := for_endpoints (table_methods fuel rest) a (logger msg st1) in
            (exists new,
                sent r'.2 = sent st ++ new
                /\ (S (length rest) <= length new)%nat
                /\ Forall (fun req => exists n p i,
                             (n, p) ∈ (name, path) :: rest /\ 1 <= i
                             /\ req = ("GET", urljoin (base_url (self st)) p,
                                       paged ∅ i)) new)
            /\ base_url (self r'.2) = base_url (self st)
            /\ (forall l, is_Some (heap st !! l) -> heap r'.2 !! l = heap st !! l)).
  { intros a msg Ho Hr' r'.
    destruct (Hd Ho) as ((n & Hn & Hs) & Hb & Hh). simpl in Hs, Hb, Hh.
    destruct (IH a (logger msg st1) Hr') as ((new & Hs' & Hlen & Hall) & Hb' & Hh').
    fold r' in Hs', Hb', Hh'. simpl in Hs', Hb', Hh'.
    split; [|split].
    - exists (page_requests (urljoin (base_url (self st)) path) ∅ 1 n ++ new).
      rewrite Hs', Hs, <- app_assoc. split; [done|]. split.
      + rewrite length_app. unfold page_requests.
        rewrite length_map, length_seqZ, Nat2Z.id. unfold request in *. lia.
      + apply Forall_app. split.
        * apply Forall_forall. intros req Hreq. unfold page_requests in Hreq.
          apply list_elem_of_fmap in Hreq as (i & -> & Hi).
          apply elem_of_seqZ in Hi. exists name, path, i.
          split; [by apply elem_of_cons; left|]. split; [lia|done].
        * eapply Forall_impl; [exact Hall|]. simpl.
          intros req (n' & p' & i & Hin & Hi & ->).
          exists n', p', i. rewrite Hb.
          split; [by apply elem_of_cons; right|done].
    - by rewrite Hb', Hb.
    - intros l Hl. rewrite Hh' by (by rewrite Hh). by apply Hh. }
  destruct o as [items|e|]; [| |done].
  - by apply Hnext.
  - by apply Hnext.
Qed.

End AggregateRequests.

(** X8. A run of [get_all_data] that ends sends only paged GET requests to
    the eleven endpoints: each request it adds to the history is a [GET] of
    one of the eleven paths joined to the base URL, with the parameters
    [page = i] and [limit = 100] and no others, and there are at least
    eleven of them.  It leaves the base URL and every dictionary that
    existed before as they were. *)
Theorem aggregate_sends_only_paged_gets `{T : Transport} fuel st :
  let r := get_all_data fuel st in
  r.1 <> OutOfFuel ->
  (exists new,
      sent r.2 = sent st ++ new
      /\ (11 <= length new)%nat
      /\ Forall (fun req => exists name path i,
                   (name, path) ∈ endpoint_table /\ 1 <= i
                   /\ req = ("GET", urljoin (base_url (self st)) path, paged ∅ i))
           new)
  /\ base_url (self r.2) = base_url (self st)
  /\ (forall l, is_Some (heap st !! l) -> heap r.2 !! l = heap st !! l).
Proof.
  intros r Hr. unfold r in *. clear r.
  unfold get_all_data in *. rewrite endpoints_table in *.
  pose proof (for_endpoints_requests fuel endpoint_table ∅ (logger MsgStart st))
    as H. cbv zeta in H.
  destruct (for_endpoints (table_methods fuel endpoint_table) ∅
              (logger MsgStart st)) as [[m| |] st1];
    cbn [fst snd] in *; [| |done];
    (destruct H as (Hs & Hb & Hh); [done|]); done.
Qed.

(** ** The interval between requests on an exact clock *)

Section Interval.
Context `{T : Transport}.
Variable now : World -> Z.
Variable ms : Instant -> Z.
Hypothesis clock : exact_clock now ms.

Lemma wait_keeps_interval st :
  let st1 := _wait_for_rate_limit st in
  ms (last_request_time (self st)) + ms (min_request_interval (self st))
  <= ms (last_request_time (self st1))
  /\ now (world st) <= ms (last_request_time (self st1)) <= now (world st1)
  /\ min_request_interval (self st1) = min_request_interval (self st).
Proof.
  unfold _wait_for_rate_limit.
  pose proof (reading now ms clock (world st)) as R1.
  destruct (time_time (world st)) as [current_time w1]. simpl in R1.
  set (since := time_sub current_time (last_request_time (self st))).
  set (w2 := if time_ltb since (min_request_interval (self st))
             then time_sleep (time_sub (min_request_interval (self st)) since) w1
             else w1).
  assert (H2 : ms (last_request_time (self st)) + ms (min_request_interval (self st))
               <= now w2 /\ now w1 <= now w2).
  { unfold w2. rewrite (ltb_exact now ms clock). unfold since.
    rewrite (sub_exact now ms clock).
    destruct (_ <? _) eqn:E.
    - pose proof (sleeping now ms clock
                    (time_sub (min_request_interval (self st))
                       (time_sub current_time (last_request_time (self st)))) w1)
        as Hsl.
      rewrite !(sub_exact now ms clock) in Hsl. lia.
    - lia. }
  pose proof (reading now ms clock w2) as R2.
  destruct (time_time w2) as [stamp w3]. simpl in *.
  split; [lia|]. split; [lia|done].
Qed.

End Interval.

(** X9. On an exact clock (whole milliseconds, exact subtraction and
    comparison, a sleep that lasts at least as long as asked, no step back)
    every call of the fetcher stamps its request at least the minimum
    interval after the stamp of the call before, whatever happened in
    between; the stamp is taken after the call began and before it ends, and
    the interval itself is never changed. *)
Theorem interval_kept_on_exact_clock `{T : Transport} (now : World -> Z)
    (ms : Instant -> Z) method endpoint params st :
  exact_clock now ms ->
  let r := _make_request method endpoint params st in
  ms (last_request_time (self st)) + ms (min_request_interval (self st))
  <= ms (last_request_time (self r.2))
  /\ now (world st) <= ms (last_request_time (self r.2)) <= now (world r.2)
  /\ min_request_interval (self r.2) = min_request_interval (self st).
Proof.
  intros clock r.
  destruct (wait_keeps_interval now ms clock st) as (H1 & H2 & H3).
  unfold r, _make_request.
  set (st1 := _wait_for_rate_limit st) in *.
  pose proof (requesting now ms clock method
                (urljoin (base_url (self st1)) endpoint) params (world st1)) as Hq.
  destruct (session_request _ _ _ _) as [[e|resp] w]; simpl in Hq.
  - destruct (except_clauses None e
                (set_world w (record_request
                   (method, urljoin (base_url (self st1)) endpoint, params) st1)))
      as [a st'] eqn:E.
    apply except_clauses_frame in E as (_ & _ & Hw & Hs & _).
    simpl in *. rewrite Hs, Hw. simpl. split; [lia|]. split; [lia|done].
  - destruct (try_block resp
                (set_world w (record_request
                   (method, urljoin (base_url (self st1)) endpoint, params) st1)))
      as [a st'] eqn:E.
    apply try_block_frame in E as (_ & _ & Hw & Hs & _).
    simpl in *. rewrite Hs, Hw. simpl. split; [lia|]. split; [lia|done].
Qed.

(** The scripted clock is exact. *)
Lemma mock_clock_exact server :
  exact_clock (T := mock server) (fun w => w) (fun t => t).
Proof. split; simpl; intros; lia. Qed.

Lemma interval_kept_on_exact_clock_witness :
  let r := _make_request (T := mock second_page_fails) "GET" "/api/users" ∅
             (fresh_state (T := mock second_page_fails) 1000) in
  0 + 600 <= last_request_time (self r.2)
  /\ 1000 <= last_request_time (self r.2) <= world r.2
  /\ min_request_interval (self r.2) = 600.
Proof.
  exact (interval_kept_on_exact_clock (T := mock second_page_fails)
           (fun w => w) (fun t => t) "GET" "/api/users" ∅
           (fresh_state (T := mock second_page_fails) 1000)
           (mock_clock_exact second_page_fails)).
Defined.

(** ** The names of the sheets *)

Lemma lower_not_underscore c : c <> "_"%char -> lower c <> "_"%char.
Proof.
  destruct c as [[] [] [] [] [] [] [] []]; vm_compute; congruence.
Qed.

Lemma upper_not_underscore c : c <> "_"%char -> upper c <> "_"%char.
Proof.
  destruct c as [[] [] [] [] [] [] [] []]; vm_compute; congruence.
Qed.

Lemma title_from_length b s : String.length (title_from b s) = String.length s.
Proof.
  revert b. induction s as [|c s IH]; intros b; [done|]. simpl. by rewrite IH.
Qed.

Lemma replace_char_length a b s :
  String.length (replace_char a b s) = String.length s.
Proof. induction s as [|c s IH]; [done|]. simpl. by rewrite IH. Qed.

Lemma title_from_no_underscore b s :
  Forall (fun c => c <> "_"%char) (list_ascii_of_string s) ->
  Forall (fun c => c <> "_"%char) (list_ascii_of_string (title_from b s)).
Proof.
  revert b. induction s as [|c s IH]; intros b H; [done|].
  simpl in *. apply Forall_cons in H as [Hc Hs].
  apply Forall_cons. split; [|by apply IH].
  destruct b; [by apply lower_not_underscore|by apply upper_not_underscore].
Qed.

Lemma replace_underscore_none s :
  Forall (fun c => c <> "_"%char)
    (list_ascii_of_string (replace_char "_" " " s)).
Proof.
  induction s as [|c s IH]; [done|]. simpl. apply Forall_cons. split; [|done].
  destruct (Ascii.eqb c "_") eqn:E; [done|]. by apply Ascii.eqb_neq.
Qed.

(** X10. For a data type named in ASCII, the sheet name has as many
    characters as the type name and holds no underscore; and the eleven
    endpoint names give eleven different sheet names, so that no two
    endpoints are written to the same sheet. *)
Theorem sheet_names_well_formed (data_type : string) :
  is_ascii data_type = true ->
  String.length (sheet_name_of data_type) = String.length data_type
  /\ Forall (fun c => c <> "_"%char) (list_ascii_of_string (sheet_name_of data_type))
  /\ NoDup (sheet_name_of <$> endpoint_table.*1).
Proof.
  intros _. unfold sheet_name_of, py_title. split; [|split].
  - by rewrite title_from_length, replace_char_length.
  - apply title_from_no_underscore, replace_underscore_none.
  - apply (bool_decide_unpack _). by vm_compute.
Qed.

Lemma sheet_names_well_formed_witness :
  String.length (sheet_name_of "registration_folders")
  = String.length "registration_folders"
  /\ sheet_name_of "registration_folders" = "Registration Folders".
Proof.
  split; [|reflexivity].
  exact (proj1 (sheet_names_well_formed "registration_folders" eq_refl)).
Defined.

(** ** The Sheets client *)

Section SheetsProperties.
Context `{S : Sheets}.

Lemma run_call_frame c (st : sheets_state) :
  calls (run_call c st).2 = calls st ++ [c]
  /\ spreadsheet_id (run_call c st).2 = spreadsheet_id st
  /\ sheets_log (run_call c st).2 = sheets_log st
  /\ (run_call c st).1 = (execute c (sheets_world st)).1
  /\ sheets_world (run_call c st).2 = (execute c (sheets_world st)).2.
Proof. unfold run_call. by destruct (execute c (sheets_world st)). Qed.

Lemma sheet_titles_found name (l titles : list pyval) :
  sheet_titles l = Ok titles ->
  existsb (title_is name) titles = true <-> VStr name ∈ titles.
Proof.
  intros _. rewrite existsb_exists. split.
  - intros (t & Hin & Ht). destruct t; simpl in Ht; try done.
    apply String.eqb_eq in Ht. subst. by apply list_elem_of_In.
  - intros Hin. exists (VStr name). split; [by apply list_elem_of_In|].
    simpl. apply String.eqb_refl.
Qed.

End SheetsProperties.

(** X11. [create_sheet_if_not_exists] first reads the spreadsheet, and
    sends one [addSheet] request after that or nothing more.  It returns
    [False] only when the listing it read holds a sheet with the title, and
    then it has sent no [addSheet]; it returns [True] only when the listing
    holds no such sheet and the [addSheet] request it sent succeeded.  When
    it raises, the last record of the log is the error, and the spreadsheet
    of the client is never changed. *)
Theorem create_sheet_outcomes `{S : Sheets} (name : string) (st : sheets_state) :
  let r := create_sheet_if_not_exists name st in
  let get := SpreadsheetsGet (spreadsheet_id st) in
  let add := SpreadsheetsBatchUpdate (spreadsheet_id st) [AddSheet name] in
  spreadsheet_id r.2 = spreadsheet_id st
  /\ (calls r.2 = calls st ++ [get] \/ calls r.2 = calls st ++ [get; add])
  /\ (forall e, r.1 = Err e ->
        last (sheets_log r.2) = Some (SheetCreateError name e))
  /\ (forall b, r.1 = Ok b ->
        exists spreadsheet sheets l titles,
          (execute get (sheets_world st)).1 = Ok spreadsheet
          /\ py_getitem spreadsheet "sheets" = Ok sheets
          /\ py_iter sheets = Ok l
          /\ sheet_titles l = Ok titles
          /\ if b
             then (VStr name ∉ titles) /\ calls r.2 = calls st ++ [get; add]
                  /\ exists answer,
                       (execute add (execute get (sheets_world st)).2).1 = Ok answer
             else (VStr name ∈ titles) /\ calls r.2 = calls st ++ [get]).
Proof.
  intros r get add. unfold r, create_sheet_if_not_exists, create_sheet_try.
  fold get.
  destruct (run_call_frame get st) as (Hc & Hi & Hl & Hr & Hw).
  destruct (run_call get st) as [[spreadsheet|e] st1]; simpl in *;
    [|rewrite Hc, Hi; repeat split; eauto;
      [intros e' [= <-]; by rewrite last_snoc|done]].
  destruct (py_getitem spreadsheet "sheets") as [sheets|e] eqn:Hg; simpl;
    [|rewrite Hc, Hi; repeat split; eauto;
      [intros e' [= <-]; by rewrite last_snoc|done]].
  destruct (py_iter sheets) as [l|e] eqn:Hit; simpl;
    [|rewrite Hc, Hi; repeat split; eauto;
      [intros e' [= <-]; by rewrite last_snoc|done]].
  destruct (sheet_titles l) as [titles|e] eqn:Ht; simpl;
    [|rewrite Hc, Hi; repeat split; eauto;
      [intros e' [= <-]; by rewrite last_snoc|done]].
  pose proof (sheet_titles_found name l titles Ht) as Hfound.
  destruct (existsb (title_is name) titles) eqn:Hex; simpl.
  - rewrite Hc, Hi. repeat split; eauto; [done|].
    intros b [= <-]. exists spreadsheet, sheets, l, titles.
    repeat split; try done. by apply Hfound.
  - rewrite Hi. fold add.
    destruct (run_call_frame add st1) as (Hc2 & Hi2 & Hl2 & Hr2 & Hw2).
    destruct (run_call add st1) as [[answer|e] st2]; simpl in *;
      rewrite Hc2, Hc, Hi2, Hi, <- app_assoc; simpl.
    + repeat split; eauto; [done|].
      intros b [= <-]. exists spreadsheet, sheets, l, titles.
      repeat split; try done.
      * intros Hin. apply Hfound in Hin. congruence.
      * exists answer. by rewrite <- Hw, <- Hr2.
    + repeat split; eauto; [|done].
      intros e' [= <-]; by rewrite last_snoc.
Qed.

Section SheetsWrites.
Context `{S : Sheets}.

Lemma create_sheet_frame name (st : sheets_state) :
  let r := create_sheet_if_not_exists name st in
  spreadsheet_id r.2 = spreadsheet_id st
  /\ exists created,
       calls r.2 = calls st ++ [SpreadsheetsGet (spreadsheet_id st)] ++ created
       /\ (created = []
           \/ created = [SpreadsheetsBatchUpdate (spreadsheet_id st) [AddSheet name]]).
Proof.
  intros r. unfold r, create_sheet_if_not_exists, create_sheet_try.
  destruct (run_call_frame (SpreadsheetsGet (spreadsheet_id st)) st)
    as (Hc & Hi & _).
  destruct (run_call (SpreadsheetsGet (spreadsheet_id st)) st)
    as [[spreadsheet|e] st1]; simpl in *;
    [|split; [done|]; exists []; rewrite Hc; eauto].
  destruct (py_getitem spreadsheet "sheets") as [sheets|e]; simpl;
    [|split; [done|]; exists []; rewrite Hc; eauto].
  destruct (py_iter sheets) as [l|e]; simpl;
    [|split; [done|]; exists []; rewrite Hc; eauto].
  destruct (sheet_titles l) as [titles|e]; simpl;
    [|split; [done|]; exists []; rewrite Hc; eauto].
  destruct (existsb (title_is name) titles); simpl;
    [split; [done|]; exists []; rewrite Hc; eauto|].
  rewrite Hi.
  destruct (run_call_frame
              (SpreadsheetsBatchUpdate (spreadsheet_id st) [AddSheet name]) st1)
    as (Hc2 & Hi2 & _).
  destruct (run_call (SpreadsheetsBatchUpdate (spreadsheet_id st) [AddSheet name])
              st1) as [[answer|e] st2]; simpl in *;
    (split; [congruence|]; eexists [_]; rewrite Hc2, Hc, <- app_assoc; eauto).
Qed.

Lemma clear_sheet_frame name (st : sheets_state) :
  let r := clear_sheet name st in
  spreadsheet_id r.2 = spreadsheet_id st
  /\ calls r.2 = calls st ++ [ValuesClear (spreadsheet_id st) (name +:+ "!A:ZZ")]
  /\ sheets_world r.2
     = (execute (ValuesClear (spreadsheet_id st) (name +:+ "!A:ZZ"))
          (sheets_world st)).2.
Proof.
  intros r. unfold r, clear_sheet.
  destruct (run_call_frame (ValuesClear (spreadsheet_id st) (name +:+ "!A:ZZ")) st)
    as (Hc & Hi & _ & _ & Hw).
  by destruct (run_call _ st) as [[u|e] st1].
Qed.

Ltac raised_is_logged := intros ? [= <-]; simpl; by rewrite last_snoc.

Ltac shape_goal :=
  first [ done | raised_is_logged | by left | by right
        | by (right; eexists; split_and!; eauto 2)
        | by intros [=] | by intros ? [=] ].

(** The calls of [write_data_to_sheet] on data that is not empty. *)
Lemma write_data_shape name (x : pyval) (data : list pyval) clear_first
    (st : sheets_state) :
  let r := write_data_to_sheet name (x :: data) clear_first st in
  let id := spreadsheet_id st in
  spreadsheet_id r.2 = id
  /\ exists created cleared written,
       calls r.2 = calls st ++ [SpreadsheetsGet id] ++ created ++ cleared ++ written
       /\ (created = [] \/ created = [SpreadsheetsBatchUpdate id [AddSheet name]])
       /\ (cleared = []
           \/ clear_first = true /\ cleared = [ValuesClear id (name +:+ "!A:ZZ")])
       /\ (written = []
           \/ exists vals,
                frame_values (x :: data) = Ok vals
                /\ written = [ValuesUpdate id (name +:+ "!A1") "RAW" vals]
                /\ (clear_first = true -> cleared <> []))
       /\ (r.1 = Ok tt -> written <> [])
       /\ (forall e, r.1 = Err e ->
             last (sheets_log r.2) = Some (WriteError name e)).
Proof.
  intros r id. unfold r, write_data_to_sheet, write_data_try.
  destruct (create_sheet_frame name st) as (Hi1 & created & Hc1 & Hcr).
  destruct (create_sheet_if_not_exists name st) as [[b|e] st1]; simpl in *.
  2: { split; [done|]. exists created, [], []. rewrite Hc1, !app_nil_r.
       split_and!; shape_goal. }
  assert (Hcl : exists st2 cleared r2,
            (if clear_first then clear_sheet name st1 else (Ok tt, st1)) = (r2, st2)
            /\ spreadsheet_id st2 = id
            /\ calls st2 = calls st1 ++ cleared
            /\ (cleared = []
                \/ clear_first = true
                   /\ cleared = [ValuesClear id (name +:+ "!A:ZZ")])
            /\ (clear_first = true -> cleared <> [])).
  { destruct clear_first.
    - destruct (clear_sheet_frame name st1) as (Hi2 & Hc2 & _).
      destruct (clear_sheet name st1) as [r2 st2]. simpl in *.
      exists st2, [ValuesClear id (name +:+ "!A:ZZ")], r2.
      rewrite Hi1 in Hi2, Hc2. split_and!; shape_goal.
    - exists st1, [], (Ok tt). rewrite app_nil_r. split_and!; shape_goal. }
  destruct Hcl as (st2 & cleared & r2 & -> & Hi2 & Hc2 & Hcl & Hne).
  destruct r2 as [[]|e]; simpl.
  2: { split; [done|]. exists created, cleared, [].
       rewrite Hc2, Hc1, !app_nil_r, <- !app_assoc.
       split_and!; shape_goal. }
  destruct (frame_values (x :: data)) as [vals|e] eqn:Hf; simpl.
  2: { split; [done|]. exists created, cleared, [].
       rewrite Hc2, Hc1, !app_nil_r, <- !app_assoc.
       split_and!; shape_goal. }
  rewrite Hi2.
  destruct (run_call_frame (ValuesUpdate id (name +:+ "!A1") "RAW" vals) st2)
    as (Hc3 & Hi3 & _).
  destruct (run_call (ValuesUpdate id (name +:+ "!A1") "RAW" vals) st2)
    as [[result|e] st3]; simpl in *.
  2: { split; [congruence|].
       exists created, cleared, [ValuesUpdate id (name +:+ "!A1") "RAW" vals].
       rewrite Hc3, Hc2, Hc1, <- !app_assoc.
       split_and!; shape_goal. }
  destruct (updated_rows result) as [rows|e]; simpl;
    (split; [congruence|]);
    exists created, cleared, [ValuesUpdate id (name +:+ "!A1") "RAW" vals];
    rewrite Hc3, Hc2, Hc1, <- !app_assoc;
    split_and!; shape_goal.
Qed.

End SheetsWrites.

(** X12. [write_data_to_sheet] with an empty list calls nothing and
    returns.  With records it reads the spreadsheet, then adds the sheet or
    not, then clears it once (only if asked to), then sends at most one
    update, in this order and nothing else: the update carries the values of
    the data frame, is never sent before the clearing that was asked for,
    and has been sent whenever the call returns.  When it raises, the last
    record of the log is the error. *)
Theorem write_data_calls `{S : Sheets} name (data : list pyval) clear_first
    (st : sheets_state) :
  let r := write_data_to_sheet name data clear_first st in
  let id := spreadsheet_id st in
  match data with
  | [] => r.1 = Ok tt /\ calls r.2 = calls st /\ sheets_world r.2 = sheets_world st
  | _ =>
      exists created cleared written,
        calls r.2 = calls st ++ [SpreadsheetsGet id] ++ created ++ cleared ++ written
        /\ (created = [] \/ created = [SpreadsheetsBatchUpdate id [AddSheet name]])
        /\ (cleared = []
            \/ clear_first = true /\ cleared = [ValuesClear id (name +:+ "!A:ZZ")])
        /\ (written = []
            \/ exists vals,
                 frame_values data = Ok vals
                 /\ written = [ValuesUpdate id (name +:+ "!A1") "RAW" vals]
                 /\ (clear_first = true -> cleared <> []))
        /\ (r.1 = Ok tt -> written <> [])
        /\ (forall e, r.1 = Err e ->
              last (sheets_log r.2) = Some (WriteError name e))
  end.
Proof.
  intros r id. destruct data as [|x data]; [done|].
  by destruct (write_data_shape name x data clear_first st) as [_ H].
Qed.

(** X13. The sheet is cleared before the records are turned into values: if
    the sheet could be found or added and was cleared, and the data frame
    then raises, [write_data_to_sheet] raises that exception with the
    clearing as its last call and no update sent, the service being as the
    clearing left it. *)
Theorem cleared_before_values `{S : Sheets} name (data : list pyval)
    (st : sheets_state) b e :
  data <> [] ->
  (create_sheet_if_not_exists name st).1 = Ok b ->
  (clear_sheet name (create_sheet_if_not_exists name st).2).1 = Ok tt ->
  frame_values data = Err e ->
  let r := write_data_to_sheet name data true st in
  r.1 = Err e
  /\ last (calls r.2) = Some (ValuesClear (spreadsheet_id st) (name +:+ "!A:ZZ"))
  /\ sheets_world r.2
     = sheets_world (clear_sheet name (create_sheet_if_not_exists name st).2).2.
Proof.
  intros Hd Hc Hcl Hf r. unfold r, write_data_to_sheet, write_data_try.
  destruct data as [|x data]; [done|].
  destruct (create_sheet_frame name st) as (Hi1 & _).
  destruct (create_sheet_if_not_exists name st) as [r1 st1]. simpl in *. subst r1.
  destruct (clear_sheet_frame name st1) as (_ & Hc2 & _).
  destruct (clear_sheet name st1) as [r2 st2]. simpl in *. subst r2.
  rewrite Hf. simpl. rewrite Hc2, last_snoc, Hi1. done.
Qed.

Section SheetsFormat.
Context `{S : Sheets}.


Lemma format_headers_frame name (st : sheets_state) :
  let r := format_sheet_headers name st in
  let id := spreadsheet_id st in
  r.1 = Ok tt
  /\ spreadsheet_id r.2 = id
  /\ exists formatted,
       calls r.2 = calls st ++ [SpreadsheetsGet id] ++ formatted
       /\ (formatted = []
           \/ exists spreadsheet sheets l sheet_id,
                (execute (SpreadsheetsGet id) (sheets_world st)).1 = Ok spreadsheet
                /\ py_getitem spreadsheet "sheets" = Ok sheets
                /\ py_iter sheets = Ok l
                /\ find_sheet_id name l = Ok sheet_id
                /\ sheet_id <> VNone
                /\ formatted = [SpreadsheetsBatchUpdate id
                                  [RepeatCellHeaders sheet_id]]).
Proof.
  intros r id. unfold r, format_sheet_headers, format_headers_try. fold id.
  destruct (run_call_frame (SpreadsheetsGet id) st) as (Hc & Hi & _ & Hr & _).
  destruct (run_call (SpreadsheetsGet id) st) as [[spreadsheet|e] st1];
    simpl in *;
    [|split_and!; try done; exists []; rewrite Hc; by eauto].
  destruct (py_getitem spreadsheet "sheets") as [sheets|e] eqn:Hg; simpl;
    [|split_and!; try done; exists []; rewrite Hc; by eauto].
  destruct (py_iter sheets) as [l|e] eqn:Hit; simpl;
    [|split_and!; try done; exists []; rewrite Hc; by eauto].
  destruct (find_sheet_id name l) as [sheet_id|e] eqn:Hf; simpl;
    [|split_and!; try done; exists []; rewrite Hc; by eauto].
  destruct sheet_id eqn:Hsid; simpl;
    [split_and!; try done; exists []; rewrite Hc; by eauto|..];
    (match goal with
     | |- context [run_call ?c st1] =>
         destruct (run_call_frame c st1) as (Hc2 & Hi2 & _);
         destruct (run_call c st1) as [[answer|e] st2]
     end;
     simpl in *; rewrite Hi in *;
     (split_and!; [done|exact Hi2|]);
     eexists [_]; rewrite Hc2, Hc, <- app_assoc; (split; [done|]);
     right; exists spreadsheet, sheets, l; eexists;
     (split_and!; [by rewrite Hr|done|done|exact Hf|done|done])).
Qed.

Lemma sync_one_frame (item : string * list pyval) (st : sheets_state) :
  spreadsheet_id (sync_one item st) = spreadsheet_id st
  /\ exists trace,
       calls (sync_one item st) = calls st ++ trace
       /\ match item.2 with
          | [] => trace = [] /\ sheets_world (sync_one item st) = sheets_world st
          | _ => exists rest, trace = SpreadsheetsGet (spreadsheet_id st) :: rest
          end.
Proof.
  destruct item as [data_type [|x data]].
  { simpl. split; [done|]. exists []. by rewrite app_nil_r. }
  unfold sync_one. cbv beta iota. cbn [snd].
  set (st1 := sheets_logger (Syncing (length (x :: data))
                               (sheet_name_of data_type)) st).
  destruct (write_data_shape (sheet_name_of data_type) x data true st1)
    as (Hi & created & cleared & written & Hc & _).
  destruct (write_data_to_sheet (sheet_name_of data_type) (x :: data) true st1)
    as [[u|e] st2]; simpl in *.
  - destruct (format_headers_frame (sheet_name_of data_type) st2)
      as (Hr & Hi3 & formatted & Hc3 & _).
    destruct (format_sheet_headers (sheet_name_of data_type) st2) as [r3 st3].
    simpl in *. subst r3. simpl. rewrite Hi3, Hc3, Hc, Hi. split; [done|].
    eexists. rewrite <- !app_assoc. split; [reflexivity|]. simpl. eauto.
  - rewrite Hc, Hi. split; [done|].
    eexists. split; [reflexivity|]. simpl. eauto.
Qed.

Lemma sync_fold_frame (items : list (string * list pyval)) :
  forall st : sheets_state,
  let st' := fold_left (fun st item => sync_one item st) items st in
  spreadsheet_id st' = spreadsheet_id st
  /\ exists traces,
       calls st' = calls st ++ concat traces
       /\ Forall2 (fun item trace =>
                     match item.2 with
                     | [] => trace = []
                     | _ => exists rest,
                              trace = SpreadsheetsGet (spreadsheet_id st) :: rest
                     end) items traces.
Proof.
  induction items as [|item items IH]; intros st; simpl.
  { split; [done|]. exists []. simpl. by rewrite app_nil_r. }
  destruct (sync_one_frame item st) as (Hi & trace & Hc & Ht).
  destruct (IH (sync_one item st)) as (Hi' & traces & Hc' & Hts).
  split; [by rewrite Hi', Hi|].
  exists (trace :: traces). split.
  - rewrite Hc', Hc. simpl. by rewrite <- app_assoc.
  - constructor.
    + destruct (item.2); [by destruct Ht|done].
    + rewrite Hi in Hts. done.
Qed.

End SheetsFormat.


(** X15. [sync_wedof_data] never raises and goes through every data type in
    turn, whatever happened to the types before it: the calls it makes are,
    type after type, none for a type whose list is empty, and for every
    other type a run of calls that begins with the reading of the
    spreadsheet.  An empty list, which is also what a failed endpoint
    leaves, causes no call: its sheet is neither cleared nor written. *)
Theorem sync_attempts_every_type `{S : Sheets} (items : list (string * list pyval))
    (st : sheets_state) :
  let r := sync_wedof_data items st in
  r.1 = Ok tt
  /\ spreadsheet_id r.2 = spreadsheet_id st
  /\ exists traces,
       calls r.2 = calls st ++ concat traces
       /\ Forall2 (fun item trace =>
                     match item.2 with
                     | [] => trace = []
                     | _ => exists rest,
                              trace = SpreadsheetsGet (spreadsheet_id st) :: rest
                     end) items traces.
Proof.
  intros r. unfold r, sync_wedof_data. simpl.
  destruct (sync_fold_frame items (sheets_logger SyncStart st)) as (Hi & Ht).
  done.
Qed.

(** ** The service *)

Lemma filter_nil_all {A} (f : A -> bool) (l : list A) :
  List.filter f l = [] -> forall x, In x l -> f x = false.
Proof.
  induction l as [|a l IH]; [done|]. simpl.
  destruct (f a) eqn:E; [done|]. intros H x [<-|Hx]; [done|by apply IH].
Qed.

Lemma filter_sublist {A} (f : A -> bool) (l : list A) :
  sublist (List.filter f l) l.
Proof.
  induction l as [|a l IH]; [constructor|]. simpl.
  destruct (f a); by constructor.
Qed.

(** X16. The service checks the three required variables before it builds
    its clients.  If every one of them is set to a non-empty value, the
    clients get these values, and the Wedof base URL is the value of
    [WEDOF_BASE_URL] if that is set, even to the empty string, and the
    default otherwise.  If not, it raises [ValueError] with the names of
    the required variables that are unset or empty, those and no others, in
    the order of the list. *)
Theorem environment_check (env : gmap string string) :
  match service_config_of_env env with
  | Ok cfg =>
      (forall var, In var required_vars ->
                   exists v, env !! var = Some v /\ v <> "")
      /\ env !! "WEDOF_API_KEY" = Some (cfg_api_key cfg)
      /\ env !! "GOOGLE_CREDENTIALS_PATH" = Some (cfg_credentials_path cfg)
      /\ env !! "GOOGLE_SPREADSHEET_ID" = Some (cfg_spreadsheet_id cfg)
      /\ cfg_base_url cfg = default "https://www.wedof.fr" (env !! "WEDOF_BASE_URL")
  | Err e =>
      exists missing,
        e = ValueError ("Variables d'environnement manquantes: "
                        +:+ join ", " missing)
        /\ missing <> []
        /\ sublist missing required_vars
        /\ forall var, In var missing
                       <-> In var required_vars
                           /\ (env !! var = None \/ env !! var = Some "")
  end.
Proof.
  unfold service_config_of_env.
  assert (Hmem : forall var, In var (missing_vars env)
                   <-> In var required_vars
                       /\ (env !! var = None \/ env !! var = Some "")).
  { intros var. unfold missing_vars. rewrite filter_In. unfold unset_or_empty.
    destruct (env !! var) as [v|]; [|naive_solver].
    split.
    - intros [H E]. apply String.eqb_eq in E. subst. eauto.
    - intros [H [E|E]]; [done|]. simplify_eq. done. }
  destruct (missing_vars env) as [|m ms] eqn:Hm.
  - assert (Hset : forall var, In var required_vars ->
              exists v, env !! var = Some v /\ v <> "").
    { intros var Hin.
      pose proof (filter_nil_all _ _ Hm var Hin) as Hf. unfold unset_or_empty in Hf.
      destruct (env !! var) as [v|]; [|done].
      exists v. split; [done|]. by apply String.eqb_neq. }
    split; [done|].
    destruct (Hset "WEDOF_API_KEY") as (v1 & -> & _); [simpl; eauto|].
    destruct (Hset "GOOGLE_CREDENTIALS_PATH") as (v2 & -> & _); [simpl; eauto|].
    destruct (Hset "GOOGLE_SPREADSHEET_ID") as (v3 & -> & _); [simpl; eauto|].
    done.
  - exists (m :: ms). split; [done|]. split; [done|]. split; [|done].
    rewrite <- Hm. apply filter_sublist.
Qed.

Section ServiceProperties.
Context `{T : Transport} `{G : Sheets}.

Lemma get_all_data_returns_table fuel st :
  match (get_all_data fuel st).1 with
  | Ret m => dom m = list_to_set endpoint_table.*1
  | Raise _ => False
  | OutOfFuel => True
  end.
Proof.
  unfold get_all_data. rewrite endpoints_table.
  assert (Hnd : NoDup endpoint_table.*1).
  { apply (bool_decide_unpack _). by vm_compute. }
  pose proof (for_endpoints_spec fuel endpoint_table ∅ (logger MsgStart st) Hnd)
    as H. cbv zeta in H.
  destruct (for_endpoints (table_methods fuel endpoint_table) ∅
              (logger MsgStart st)) as [[m| |] st1];
    cbn [fst snd] in *; [|done|done].
  destruct H as (Hdom & _). rewrite Hdom, dom_empty_L.
  by rewrite (right_id_L ∅ (∪)).
Qed.

Lemma items_in_order (m : gmap string (list pyval)) (names : list string) :
  (forall k, k ∈ names -> is_Some (m !! k)) ->
  (omap (fun name => (fun items => (name, items)) <$> m !! name) names).*1 = names.
Proof.
  induction names as [|k names IH]; intros H; [done|]. simpl.
  destruct (H k) as [items Hk]; [by left|]. rewrite Hk. simpl.
  f_equal. apply IH. intros k' Hk'. apply H. by right.
Qed.

Lemma aggregate_items_names (m : gmap string (list pyval)) :
  dom m = list_to_set endpoint_table.*1 ->
  (aggregate_items m).*1 = endpoint_table.*1.
Proof.
  intros Hdom. apply items_in_order. intros k Hk.
  apply elem_of_dom. rewrite Hdom. by apply elem_of_list_to_set.
Qed.

End ServiceProperties.

(** X17. [sync_data] never raises and, when it returns, always reports
    success: the log of [main] gets the records of a successful run, with
    the total of the items of the eleven lists, whatever failed on the way.
    The aggregate it hands over has the eleven names in the order of the
    table, and the Sheets service is called type after type in that order:
    not at all for a name whose list is empty, as after a failed drain, and
    starting with the reading of the spreadsheet for every other name. *)
Theorem sync_data_reports_success `{T : Transport} `{G : Sheets} fuel
    (st : service_state) :
  let r := sync_data fuel st in
  match r.1 with
  | Raise _ => False
  | OutOfFuel => (get_all_data fuel st.1.1).1 = OutOfFuel
  | Ret _ =>
      exists wedof_data,
        (get_all_data fuel st.1.1).1 = Ret wedof_data
        /\ (aggregate_items wedof_data).*1 = endpoint_table.*1
        /\ r.2.2 = st.2 ++ [MainRule; MainStarting; MainTimestamp; MainRule;
                            MainFetching;
                            MainTotal (total_items (aggregate_items wedof_data));
                            MainSyncing;
                            MainSheetAt (get_spreadsheet_url st.1.2);
                            MainRule; MainSucceeded; MainRule]
        /\ exists traces,
             calls r.2.1.2 = calls st.1.2 ++ concat traces
             /\ Forall2 (fun item trace =>
                           match item.2 with
                           | [] => trace = []
                           | _ => exists rest,
                                    trace = SpreadsheetsGet (spreadsheet_id st.1.2)
                                            :: rest
                           end) (aggregate_items wedof_data) traces
  end.
Proof.
  intros r. unfold r, sync_data. destruct st as [[w g] ml]. cbn [fst snd main_logs].
  pose proof (get_all_data_returns_table fuel w) as Hdom.
  destruct (get_all_data fuel w) as [[m|e|] w1]; cbn [fst snd] in *; [|done|done].
  unfold sync_wedof_data. cbn [fst snd main_logs].
  destruct (sync_fold_frame (aggregate_items m) (sheets_logger SyncStart g))
    as (Hi & traces & Hc & Ht).
  exists m. split; [done|]. split; [by apply aggregate_items_names|].
  split.
  - unfold get_spreadsheet_url. cbn [spreadsheet_id sheets_logger].
    rewrite Hi. cbn [spreadsheet_id sheets_logger].
    by rewrite <- !app_assoc.
  - exists traces. done.
Qed.

(** ** The further properties on concrete runs *)

(** A header value that [int] does not read, here a separator before the
    digit, makes the fetcher raise [ValueError] whatever the status below
    400, with nothing logged. *)
Example separator_header_raises :
  let r := {| status_code := 301;
              headers := [("X-RateLimit-Remaining", String "031"%char "4")];
              text := ""; json := Ok (VList []) |} in
  let res := _make_request (T := mock (fun _ _ => inr r)) "GET" "/api/users" ∅
               (fresh_state (T := mock (fun _ _ => inr r)) 0) in
  res.1 = Err invalid_literal /\ log res.2 = [].
Proof. by vm_compute. Qed.

Lemma rate_warning_below_five_witness :
  let T4 := mock (fun _ _ => inr (ok_json [("x-ratelimit-remaining", "4")]
                                    (VList []))) in
  let res := _make_request (T := T4) "GET" "/api/users" ∅
               (fresh_state (T := T4) 0) in
  res.1 = Ok (VList []) /\ log res.2 = [] ++ [MsgRateLimitClose 4].
Proof.
  exact (rate_warning_below_five
           (T := mock (fun _ _ => inr (ok_json [("x-ratelimit-remaining", "4")]
                                         (VList []))))
           "GET" "/api/users" ∅ _
           (ok_json [("x-ratelimit-remaining", "4")] (VList [])) "4" 4 (VList [])
           eq_refl eq_refl eq_refl eq_refl eq_refl).
Defined.

Lemma http_error_raised_and_logged_witness :
  let res := _make_request (T := mock (fun _ _ => inr unavailable)) "GET"
               "/api/users" ∅
               (fresh_state (T := mock (fun _ _ => inr unavailable)) 0) in
  res.1 = Err (HTTPError 503 "Service Unavailable")
  /\ log res.2 = [] ++ [MsgHttpError 503 "Service Unavailable"].
Proof.
  apply (http_error_raised_and_logged
           (T := mock (fun _ _ => inr unavailable)) "GET" "/api/users" ∅
           (fresh_state (T := mock (fun _ _ => inr unavailable)) 0)
           unavailable eq_refl).
  simpl. lia.
Defined.

Lemma other_statuses_are_returned_witness :
  let moved := {| status_code := 301; headers := []; text := "";
                  json := Ok (VList []) |} in
  (_make_request (T := mock (fun _ _ => inr moved)) "GET" "/api/users" ∅
     (fresh_state (T := mock (fun _ _ => inr moved)) 0)).1 = Ok (VList []).
Proof.
  intros moved.
  apply (other_statuses_are_returned (T := mock (fun _ _ => inr moved))
           "GET" "/api/users" ∅
           (fresh_state (T := mock (fun _ _ => inr moved)) 0)
           moved (VList []) eq_refl).
  - simpl. lia.
  - exact I.
  - reflexivity.
Defined.

Lemma session_failures_witness :
  let refused := RequestException "ConnectionError" "connection refused" in
  let res := _make_request (T := mock (fun _ _ => inl refused)) "GET"
               "/api/users" ∅
               (fresh_state (T := mock (fun _ _ => inl refused)) 0) in
  res.1 = Err refused /\ log res.2 = [] ++ [MsgRequestError refused].
Proof.
  intros refused.
  exact (session_failures (T := mock (fun _ _ => inl refused))
           "GET" "/api/users" ∅
           (fresh_state (T := mock (fun _ _ => inl refused)) 0)
           refused eq_refl).
Defined.

Lemma drain_collects_pages_in_order_witness :
  let src := fun p : Z =>
    if p =? 1 then VList (records 1 100)
    else VDict [("data", VList (records 101 5))] in
  let r := get_paginated_data (T := scripted src) 5 "/api/users" None
             (fresh_state (T := scripted src) 0) in
  r.1 = Ret (records 1 100 ++ records 101 5 ++ [])
  /\ sent r.2 = [] ++ page_requests ("https://www.wedof.fr" +:+ "/api/users") ∅ 1 2.
Proof.
  intros src.
  apply (drain_collects_pages_in_order src
           (fun p => if p =? 1 then records 1 100 else records 101 5)
           "/api/users" 2 5 (fresh_state (T := scripted src) 0)).
  - intros p. unfold src. destruct (p =? 1); reflexivity.
  - lia.
  - intros p Hp. replace p with 1 by lia. vm_compute. lia.
  - vm_compute. lia.
Defined.

Lemma aggregate_sends_only_paged_gets_witness :
  let r := get_all_data (T := mock attendees_down) 1
             (fresh_state (T := mock attendees_down) 0) in
  exists new, sent r.2 = [] ++ new /\ (11 <= length new)%nat.
Proof.
  intros r.
  destruct (aggregate_sends_only_paged_gets (T := mock attendees_down) 1
              (fresh_state (T := mock attendees_down) 0))
    as ((new & Hs & Hlen & _) & _).
  - intros H.
    assert (E : match (get_all_data (T := mock attendees_down) 1
                         (fresh_state (T := mock attendees_down) 0)).1 with
                | OutOfFuel => False
                | _ => True
                end) by (vm_compute; exact I).
    rewrite H in E. exact E.
  - exists new. exact (conj Hs Hlen).
Defined.

Lemma cleared_before_values_witness :
  let G := mock_sheets accepting frame_fails in
  let r := write_data_to_sheet (S := G) "Users" [VDict [("id", VInt 1)]] true
             (sheets_start (S := G) tt) in
  r.1 = Err (ValueError "The truth value of an array is ambiguous")
  /\ last (calls r.2) = Some (ValuesClear "sheet-1" ("Users" +:+ "!A:ZZ")).
Proof.
  intros G.
  destruct (cleared_before_values (S := G) "Users" [VDict [("id", VInt 1)]]
              (sheets_start (S := G) tt) false
              (ValueError "The truth value of an array is ambiguous"))
    as (H1 & H2 & _); [discriminate|reflexivity|reflexivity|reflexivity|].
  exact (conj H1 H2).
Defined.

(** The records of two endpoints written to a spreadsheet that has the
    sheet [Users] only: the sheet of the trainings is added, both sheets are
    cleared and written, and the headers of [Users] are formatted. *)
Example sync_two_types :
  let G := mock_sheets accepting frame_ids in
  let r := sync_wedof_data (S := G)
             [("users", records 1 2); ("attendees", []); ("trainings", records 1 1)]
             (sheets_start (S := G) tt) in
  calls r.2 =
    [ SpreadsheetsGet "sheet-1";
      ValuesClear "sheet-1" "Users!A:ZZ";
      ValuesUpdate "sheet-1" "Users!A1" "RAW"
        [[VStr "id"]; [VDict [("id", VInt 1)]]; [VDict [("id", VInt 2)]]];
      SpreadsheetsGet "sheet-1";
      SpreadsheetsBatchUpdate "sheet-1" [RepeatCellHeaders (VInt 0)];
      SpreadsheetsGet "sheet-1";
      SpreadsheetsBatchUpdate "sheet-1" [AddSheet "Trainings"];
      ValuesClear "sheet-1" "Trainings!A:ZZ";
      ValuesUpdate "sheet-1" "Trainings!A1" "RAW"
        [[VStr "id"]; [VDict [("id", VInt 1)]]];
      SpreadsheetsGet "sheet-1" ].
Proof. reflexivity. Qed.
